(** * Swellyo backend: the chat-session protocol of [backend/main.py]

    The service keeps a process-wide dictionary [chats] from chat ids to
    message lists, forwards the accumulated history to a language model and
    turns the model's reply into a structured answer.  This development
    embeds the three handlers ([new_chat], [continue_chat],
    [get_chat_history]) together with the part of Python's [json.loads]
    they rely on, and proves the properties of the session protocol.
    The handlers of the mock service of [backend/main_mock.py], which
    answers from canned texts instead of a model, are in [Mock].

    Modelling conventions.
    - A Python [str] is a [string] holding its UTF-8 bytes.
    - The dictionary [chats] is a [gmap string (list Turn)]; a handler is a
      computation that threads this store and may raise, and the store keeps
      every mutation made before an exception (as the Python objects do).
    - [uuid.uuid4()] and the OpenAI client are the environment: the drawn id
      and the client (a function from the request it is sent to either a
      completion text or a raised exception) are arguments of the handlers.
    - The interpreter's limits that [json.loads] can run into (the
      recursion depth left when it is called, the largest number of digits
      [int] converts) are an [interpreter], an argument of the decoder and
      of the handlers.
    - [print] and the transport layer (routing, CORS, serialisation of the
      returned dictionary) are not part of the model. *)

From Stdlib Require Import ZArith NArith QArith Ascii String List Lia.
From stdpp Require Import gmap strings list fin_maps pretty.
Close Scope Q_scope.

(** ** Python values produced by [json.loads] *)

Inductive json : Type :=
| JNull
| JBool (b : bool)
| JInt (n : Z)
| JFloat (lexeme : string)
| JString (s : string)
| JArray (items : list json)
| JObject (pairs : list (string * json)).

(** A [dict] keeps its keys in insertion order; assigning to a key that is
    present replaces the value in place. *)
Fixpoint dict_set (k : string) (v : json) (d : list (string * json))
  : list (string * json) :=
  match d with
  | [] => [(k, v)]
  | (k', v') :: d' =>
      if String.eqb k k' then (k, v) :: d' else (k', v') :: dict_set k v d'
  end.

Fixpoint dict_lookup (k : string) (d : list (string * json)) : option json :=
  match d with
  | [] => None
  | (k', v) :: d' => if String.eqb k k' then Some v else dict_lookup k d'
  end.

(** [dict(pairs)]: later pairs overwrite earlier ones. *)
Definition dict_of_pairs (ps : list (string * json)) : list (string * json) :=
  fold_left (fun d kv => dict_set (fst kv) (snd kv) d) ps [].

(** ** The interpreter *)

(** What the handlers' [json.loads] depends on besides the text:
    [recursion_headroom], how many arrays and objects, one inside the
    other, the decoder may enter before the interpreter's recursion limit
    stops it ([sys.getrecursionlimit()], 1000 by default, less the depth of
    the stack at the call); [int_max_str_digits], the most digits an
    integer text may have ([sys.get_int_max_str_digits()], 4300 by default;
    0 means no limit). *)
Record interpreter : Type := {
  recursion_headroom : nat;
  int_max_str_digits : nat
}.

(** ** The decoder of [json.loads] (strict mode, default hooks, C scanner) *)

Module Decoder.

(** The result of scanning: a value and the text after it; a text that
    is not JSON ([JSONDecodeError]); the model's own fuel running out; a
    container (["array"] or ["object"]) entered past the recursion limit
    ([RecursionError]); an integer of too many digits ([ValueError]). *)
Inductive scan (A : Type) : Type :=
| Scanned (v : A) (rest : string)
| DecodeError
| OutOfFuel
| TooDeep (container : string)
| TooLong (digits : nat).
Arguments Scanned {A} v rest.
Arguments DecodeError {A}.
Arguments OutOfFuel {A}.
Arguments TooDeep {A} container.
Arguments TooLong {A} digits.

Definition chr (n : N) : ascii := ascii_of_N n.
Definition ord (c : ascii) : N := N_of_ascii c.

Definition is_ws (c : ascii) : bool :=
  (ord c =? 32)%N || (ord c =? 9)%N || (ord c =? 10)%N || (ord c =? 13)%N.

Fixpoint skip_ws (s : string) : string :=
  match s with
  | String c r => if is_ws c then skip_ws r else s
  | EmptyString => s
  end.

Definition is_digit (c : ascii) : bool :=
  (48 <=? ord c)%N && (ord c <=? 57)%N.

Definition hex_digit (c : ascii) : option N :=
  let n := ord c in
  if (48 <=? n)%N && (n <=? 57)%N then Some (n - 48)%N
  else if (65 <=? n)%N && (n <=? 70)%N then Some (n - 55)%N
  else if (97 <=? n)%N && (n <=? 102)%N then Some (n - 87)%N
  else None.

Definition hex4 (a b c d : ascii) : option N :=
  match hex_digit a, hex_digit b, hex_digit c, hex_digit d with
  | Some x, Some y, Some z, Some w => Some (((x * 16 + y) * 16 + z) * 16 + w)%N
  | _, _, _, _ => None
  end.

(** [chr(uni)] as UTF-8 bytes (a lone surrogate gets the three-byte form). *)
Definition utf8 (u : N) : list ascii :=
  if (u <? 128)%N then [chr u]
  else if (u <? 2048)%N then [chr (192 + u / 64); chr (128 + u mod 64)]
  else if (u <? 65536)%N then
    [chr (224 + u / 4096); chr (128 + (u / 64) mod 64); chr (128 + u mod 64)]
  else
    [chr (240 + u / 262144); chr (128 + (u / 4096) mod 64);
     chr (128 + (u / 64) mod 64); chr (128 + u mod 64)].

Definition is_high_surrogate (u : N) : bool := (55296 <=? u)%N && (u <=? 56319)%N.
Definition is_low_surrogate (u : N) : bool := (56320 <=? u)%N && (u <=? 57343)%N.

Definition unescape (c : ascii) : option ascii :=
  let n := ord c in
  if (n =? 34)%N then Some (chr 34)          (* quotation mark *)
  else if (n =? 92)%N then Some (chr 92)     (* backslash *)
  else if (n =? 47)%N then Some (chr 47)     (* slash *)
  else if (n =? 98)%N then Some (chr 8)      (* b *)
  else if (n =? 102)%N then Some (chr 12)    (* f *)
  else if (n =? 110)%N then Some (chr 10)    (* n *)
  else if (n =? 114)%N then Some (chr 13)    (* r *)
  else if (n =? 116)%N then Some (chr 9)     (* t *)
  else None.

Definition string_of_rev (acc : list ascii) : string :=
  string_of_list_ascii (rev acc).

(** [scanstring]: the text after an opening quotation mark, up to the
    closing one.  [acc] holds the decoded characters, last first. *)
Fixpoint scanstring (s : string) (acc : list ascii) : scan string :=
  match s with
  | EmptyString => DecodeError
  | String c r =>
      if (ord c =? 34)%N then Scanned (string_of_rev acc) r
      else if (ord c =? 92)%N then
        match r with
        | EmptyString => DecodeError
        | String e r1 =>
            if (ord e =? 117)%N then
              match r1 with
              | String h1 (String h2 (String h3 (String h4 r2))) =>
                  match hex4 h1 h2 h3 h4 with
                  | None => DecodeError
                  | Some uni =>
                      match r2 with
                      | String b (String u (String l1 (String l2 (String l3 (String l4 r3))))) =>
                          if is_high_surrogate uni && (ord b =? 92)%N && (ord u =? 117)%N then
                            match hex4 l1 l2 l3 l4 with
                            | None => DecodeError
                            | Some uni2 =>
                                if is_low_surrogate uni2 then
                                  scanstring r3
                                    (rev (utf8 (65536 + ((uni - 55296) * 1024 + (uni2 - 56320)))) ++ acc)
                                else scanstring r2 (rev (utf8 uni) ++ acc)
                            end
                          else scanstring r2 (rev (utf8 uni) ++ acc)
                      | String b (String u _) =>
                          if is_high_surrogate uni && (ord b =? 92)%N && (ord u =? 117)%N
                          then DecodeError
                          else scanstring r2 (rev (utf8 uni) ++ acc)
                      | _ => scanstring r2 (rev (utf8 uni) ++ acc)
                      end
                  end
              | _ => DecodeError
              end
            else
              match unescape e with
              | Some ch => scanstring r1 (ch :: acc)
              | None => DecodeError
              end
        end
      else if (ord c <? 32)%N then DecodeError
      else scanstring r (c :: acc)
  end.

(** [NUMBER_RE]: an integer part, an optional fraction, an optional
    exponent; a fraction or exponent without digits is not consumed. *)
Fixpoint span_digits (s : string) : string * string :=
  match s with
  | String c r =>
      if is_digit c then let '(ds, rest) := span_digits r in (String c ds, rest)
      else (EmptyString, s)
  | EmptyString => (EmptyString, EmptyString)
  end.

Fixpoint nat_of_digits (ds : string) (acc : N) : N :=
  match ds with
  | String c r => nat_of_digits r (acc * 10 + (ord c - 48))%N
  | EmptyString => acc
  end.

Definition match_integer (s : string) : option (bool * string * string) :=
  let '(neg, s1) :=
    match s with
    | String c r => if (ord c =? 45)%N then (true, r) else (false, s)
    | EmptyString => (false, s)
    end in
  match s1 with
  | String c r =>
      if (ord c =? 48)%N then Some (neg, String c EmptyString, r)
      else if is_digit c then
        let '(ds, rest) := span_digits r in Some (neg, String c ds, rest)
      else None
  | EmptyString => None
  end.

Definition match_frac (s : string) : string * string :=
  match s with
  | String c r =>
      if (ord c =? 46)%N then
        match span_digits r with
        | (EmptyString, _) => (EmptyString, s)
        | (ds, rest) => (String c ds, rest)
        end
      else (EmptyString, s)
  | EmptyString => (EmptyString, s)
  end.

Definition match_exp (s : string) : string * string :=
  match s with
  | String c r =>
      if (ord c =? 101)%N || (ord c =? 69)%N then
        let '(sign, r1) :=
          match r with
          | String g r' =>
              if (ord g =? 45)%N || (ord g =? 43)%N
              then (String g EmptyString, r') else (EmptyString, r)
          | EmptyString => (EmptyString, r)
          end in
        match span_digits r1 with
        | (EmptyString, _) => (EmptyString, s)
        | (ds, rest) => (String c (sign +:+ ds), rest)
        end
      else (EmptyString, s)
  | EmptyString => (EmptyString, s)
  end.

(** A number without fraction and exponent goes through [int], which
    refuses more than [max_digits] digits (when [max_digits] is not 0, and
    never a number of 640 digits or less, the smallest limit that can be
    set); the others go through [float], which has no such limit. *)
Definition match_number (max_digits : nat) (s : string) : option (scan json) :=
  match match_integer s with
  | None => None
  | Some (neg, digits, r0) =>
      let '(frac, r1) := match_frac r0 in
      let '(exp, r2) := match_exp r1 in
      let integer := if neg then String (chr 45) digits else digits in
      match frac, exp with
      | EmptyString, EmptyString =>
          if (640 <? String.length digits) && (0 <? max_digits)
             && (max_digits <? String.length digits)
          then Some (TooLong (String.length digits))
          else
            let n := Z.of_N (nat_of_digits digits 0) in
            Some (Scanned (JInt (if neg then - n else n)%Z) r2)
      | _, _ => Some (Scanned (JFloat (integer +:+ frac +:+ exp)) r2)
      end
  end.

(** [s[idx:idx + len(w)] == w], returning the text after [w]. *)
Fixpoint strip_prefix (w s : string) : option string :=
  match w, s with
  | EmptyString, _ => Some s
  | String a w', String b s' => if Ascii.eqb a b then strip_prefix w' s' else None
  | String _ _, EmptyString => None
  end.

Definition scan_constant (max_digits : nat) (s : string) : scan json :=
  match strip_prefix "null" s with
  | Some r => Scanned JNull r
  | None =>
  match strip_prefix "true" s with
  | Some r => Scanned (JBool true) r
  | None =>
  match strip_prefix "false" s with
  | Some r => Scanned (JBool false) r
  | None =>
  match match_number max_digits s with
  | Some o => o
  | None =>
  match strip_prefix "NaN" s with
  | Some r => Scanned (JFloat "NaN") r
  | None =>
  match strip_prefix "Infinity" s with
  | Some r => Scanned (JFloat "Infinity") r
  | None =>
  match strip_prefix "-Infinity" s with
  | Some r => Scanned (JFloat "-Infinity") r
  | None => DecodeError
  end end end end end end end.

(** [scan_once] with [JSONArray] and [JSONObject]; the two loops carry the
    items read so far, last first.  [depth] is the recursion depth left:
    entering an array or an object takes one level, and raises when none
    is left.  Every call spends one unit of fuel. *)
Fixpoint scan_once (max_digits fuel depth : nat) (s : string) : scan json :=
  match fuel with
  | O => OutOfFuel
  | S fuel' =>
      match s with
      | EmptyString => DecodeError
      | String c r =>
          if (ord c =? 34)%N then
            match scanstring r [] with
            | Scanned v rest => Scanned (JString v) rest
            | DecodeError => DecodeError
            | OutOfFuel => OutOfFuel
            | TooDeep container => TooDeep container
            | TooLong digits => TooLong digits
            end
          else if (ord c =? 123)%N then
            match depth with
            | O => TooDeep "object"
            | S depth' => JSONObject max_digits fuel' depth' r
            end
          else if (ord c =? 91)%N then
            match depth with
            | O => TooDeep "array"
            | S depth' => JSONArray max_digits fuel' depth' r
            end
          else scan_constant max_digits s
      end
  end

with JSONArray (max_digits fuel depth : nat) (s : string) : scan json :=
  match fuel with
  | O => OutOfFuel
  | S fuel' =>
      match skip_ws s with
      | EmptyString => array_items max_digits fuel' depth EmptyString []
      | String c r as s' =>
          if (ord c =? 93)%N then Scanned (JArray []) r
          else array_items max_digits fuel' depth s' []
      end
  end

with array_items (max_digits fuel depth : nat) (s : string) (acc : list json)
  : scan json :=
  match fuel with
  | O => OutOfFuel
  | S fuel' =>
      match scan_once max_digits fuel' depth s with
      | Scanned v rest =>
          match skip_ws rest with
          | EmptyString => DecodeError
          | String c r =>
              if (ord c =? 93)%N then Scanned (JArray (rev (v :: acc))) r
              else if (ord c =? 44)%N then
                array_items max_digits fuel' depth (skip_ws r) (v :: acc)
              else DecodeError
          end
      | failure => failure
      end
  end

with JSONObject (max_digits fuel depth : nat) (s : string) : scan json :=
  match fuel with
  | O => OutOfFuel
  | S fuel' =>
      match skip_ws s with
      | EmptyString => DecodeError
      | String c r =>
          if (ord c =? 125)%N then Scanned (JObject []) r
          else if (ord c =? 34)%N then object_items max_digits fuel' depth r []
          else DecodeError
      end
  end

(** [s] starts just after the opening quotation mark of a key. *)
with object_items (max_digits fuel depth : nat) (s : string)
    (acc : list (string * json)) : scan json :=
  match fuel with
  | O => OutOfFuel
  | S fuel' =>
      match scanstring s [] with
      | Scanned key rest =>
          match skip_ws rest with
          | EmptyString => DecodeError
          | String c r =>
              if (ord c =? 58)%N then
                match scan_once max_digits fuel' depth (skip_ws r) with
                | Scanned v rest' =>
                    match skip_ws rest' with
                    | EmptyString => DecodeError
                    | String c' r' =>
                        if (ord c' =? 125)%N then
                          Scanned (JObject (dict_of_pairs (rev ((key, v) :: acc)))) r'
                        else if (ord c' =? 44)%N then
                          match skip_ws r' with
                          | EmptyString => DecodeError
                          | String q r'' =>
                              if (ord q =? 34)%N
                              then object_items max_digits fuel' depth r''
                                     ((key, v) :: acc)
                              else DecodeError
                          end
                        else DecodeError
                    end
                | failure => failure
                end
              else DecodeError
          end
      | DecodeError => DecodeError
      | OutOfFuel => OutOfFuel
      | TooDeep container => TooDeep container
      | TooLong digits => TooLong digits
      end
  end.

(** Fuel that no text exhausts (see [DecoderFacts.decode_fuel]). *)
Definition fuel_for (s : string) : nat := 3 * String.length s + 3.

(** [JSONDecoder.decode]: one value between optional whitespace, and
    nothing after it. *)
Definition decode (python : interpreter) (s : string) : scan json :=
  match scan_once (int_max_str_digits python) (fuel_for s)
          (recursion_headroom python) (skip_ws s) with
  | Scanned v rest =>
      match skip_ws rest with
      | EmptyString => Scanned v EmptyString
      | String _ _ => DecodeError
      end
  | failure => failure
  end.

(** The scan [o] of [s] left less text than it was given. *)
Definition shorter (s : string) (o : scan json) : Prop :=
  forall v r, o = Scanned v r -> String.length r < String.length s.

End Decoder.

(** Replaces every apostrophe by a quotation mark, to write JSON texts. *)
Fixpoint dquote (s : string) : string :=
  match s with
  | String c r =>
      String (if (Decoder.ord c =? 39)%N then Decoder.chr 34 else c) (dquote r)
  | EmptyString => EmptyString
  end.

(** ** The session store and the handlers' effects *)

(** A message of a chat: the dictionary with keys [role] and [content]. *)
Record Turn : Type := { role : string; content : string }.

(** The module-level dictionary [chats]. *)
Abbreviation Chats := (gmap string (list Turn)).

Inductive exception : Type :=
| JSONDecodeError
| RecursionError (msg : string)
| ValueError (msg : string)
| AttributeError (msg : string)
| KeyError (key : string)
| ClientError (msg : string)
| HTTPException (status_code : Z) (detail : string).

(** [str(e)].  Only [RecursionError], [ValueError], [AttributeError] and
    [ClientError] ever reach the handlers' [except Exception as e]. *)
Definition str (e : exception) : string :=
  match e with
  | JSONDecodeError => "JSONDecodeError"
  | RecursionError msg => msg
  | ValueError msg => msg
  | AttributeError msg => msg
  | KeyError key => "'" +:+ key +:+ "'"
  | ClientError msg => msg
  | HTTPException status_code detail => pretty status_code +:+ ": " +:+ detail
  end.

Inductive outcome (A : Type) : Type :=
| Return (v : A)
| Raise (e : exception).
Arguments Return {A} v.
Arguments Raise {A} e.

(** A handler body: it reads and mutates [chats] and returns or raises.
    The store that comes out holds every mutation made before a raise. *)
Definition Py (A : Type) : Type := Chats -> Chats * outcome A.

Definition ret {A} (v : A) : Py A := fun chats => (chats, Return v).

Definition raise {A} (e : exception) : Py A := fun chats => (chats, Raise e).

Definition bind {A B} (m : Py A) (k : A -> Py B) : Py B :=
  fun chats =>
    match m chats with
    | (chats', Return v) => k v chats'
    | (chats', Raise e) => (chats', Raise e)
    end.

(** [try: m  except Exception as e: handler e] *)
Definition try_except {A} (m : Py A) (handler : exception -> Py A) : Py A :=
  fun chats =>
    match m chats with
    | (chats', Return v) => (chats', Return v)
    | (chats', Raise e) => handler e chats'
    end.

Declare Scope py_scope.
Delimit Scope py_scope with py.
Notation "x <- m ;; k" := (bind m (fun x => k))
  (at level 100, m at next level, k at level 200, right associativity)
  : py_scope.
Notation "m ;; k" := (bind m (fun _ => k))
  (at level 100, k at level 200, right associativity) : py_scope.

(** [chat_id in chats] *)
Definition contains (chat_id : string) : Py bool :=
  fun chats => (chats, Return (bool_decide (is_Some (chats !! chat_id)))).

(** [chats[chat_id] = turns] *)
Definition setitem (chat_id : string) (turns : list Turn) : Py unit :=
  fun chats => (<[chat_id := turns]> chats, Return tt).

(** [chats[chat_id]] *)
Definition getitem (chat_id : string) : Py (list Turn) :=
  fun chats =>
    match chats !! chat_id with
    | Some turns => (chats, Return turns)
    | None => (chats, Raise (KeyError chat_id))
    end.

(** [chats[chat_id].append(turn)] *)
Definition list_append (chat_id : string) (turn : Turn) : Py unit :=
  fun chats =>
    match chats !! chat_id with
    | Some turns => (<[chat_id := turns ++ [turn]]> chats, Return tt)
    | None => (chats, Raise (KeyError chat_id))
    end.

(** ** The model capability *)

(** The keyword arguments of [chat.completions.create]; an argument that
    is not passed is [None]. *)
Record CompletionRequest : Type := {
  model : string;
  messages : list Turn;
  max_tokens : Z;
  temperature : Q;
  store : option bool;
  response_format : option (list (string * string))
}.

(** What one call of the client gives: [response.choices[0].message.content]
    (a [str]: the capability returns a completion text), or an exception
    with its [str]. *)
Inductive completion : Type :=
| Content (text : string)
| Failure (msg : string).

Definition Client : Type := CompletionRequest -> completion.

Definition create (openai_client : Client) (req : CompletionRequest) : Py string :=
  match openai_client req with
  | Content text => ret text
  | Failure msg => raise (ClientError msg)
  end.

(** [json.loads(s)] on the interpreter [python]: the decoded value, or
    the exception it raises. *)
Definition json_loads (python : interpreter) (s : string) : outcome json :=
  match Decoder.decode python s with
  | Decoder.Scanned v _ => Return v
  | Decoder.DecodeError => Raise JSONDecodeError
  | Decoder.OutOfFuel => Raise JSONDecodeError  (* never: [decode_fuel] *)
  | Decoder.TooDeep container =>
      Raise (RecursionError
               ("maximum recursion depth exceeded while decoding a JSON "
                +:+ container +:+ " from a unicode string"))
  | Decoder.TooLong digits =>
      Raise (ValueError
               ("Exceeds the limit (" +:+ pretty (int_max_str_digits python)
                +:+ " digits) for integer string conversion: value has "
                +:+ pretty digits
                +:+ " digits; use sys.set_int_max_str_digits() to increase the limit"))
  end.

(** [json.loads] inside a handler. *)
Definition loads (python : interpreter) (s : string) : Py json :=
  match json_loads python s with
  | Return v => ret v
  | Raise e => raise e
  end.

Definition type_name (v : json) : string :=
  match v with
  | JNull => "NoneType"
  | JBool _ => "bool"
  | JInt _ => "int"
  | JFloat _ => "float"
  | JString _ => "str"
  | JArray _ => "list"
  | JObject _ => "dict"
  end.

(** [parsed_response.get(key, default)]: only a [dict] has the method. *)
Definition get (parsed_response : json) (key : string) (default : json) : Py json :=
  match parsed_response with
  | JObject d =>
      ret (match dict_lookup key d with Some v => v | None => default end)
  | v =>
      raise (AttributeError
               ("'" +:+ type_name v +:+ "' object has no attribute 'get'"))
  end.

(** ** The handlers of [main.py] *)

Definition dq : string := String (Decoder.chr 34) EmptyString.
Definition nl : string := String (Decoder.chr 10) EmptyString.
Definition q (parts : list string) : string := String.concat dq parts.

(** The text between the triple quotes, line by line; [q] joins the
    pieces of a line around its quotation marks. *)
Definition meta_prompt : string :=
  String.concat nl [
    EmptyString;
    "        Your goal is to collect: destinations, travel_style, surf_pref, and extras. Only set is_finished: true when you have all four pieces of information.";
    "        ";
    q ["        A smart, laid-back surfer who‚Äôs the ultimate go-to buddy for all things surfing and beach lifestyle. He‚Äôs a cool local friend, full of knowledge about surfing destinations, techniques, and ocean safety, with insights about waves, travel tips, and coastal culture. His tone is relaxed, friendly, and cheerful, with just the right touch of warm, uplifting energy. A sharper edge of surf-related sarcasm keeps the vibe lively and fun, like quipping about rookies wiping out or "; "perfect"; " conditions for no-shows. He‚Äôs smart, resourceful, and genuinely supportive, with responses no longer than 120 words. When offering options, he keeps it short with 2-3 clear choices. Responses avoid overusing words like "; "chill,"; " staying vibrant and fresh, and occasionally use casual text-style abbreviations like "; "ngl"; " or "; "imo"; ". Uses the words dude, bro, shredder, gnarly, stoke."];
    EmptyString;
    "Response should be in JSON.";
    EmptyString;
    "Example conversation:";
    "Given context - 23 years old, Israeli, 8-10 surf trips, Charging surfer";
    EmptyString;
    "{";
    q ["    "; "return_message"; ": "; "Which 2-3 surf zones you‚Äôd say you really know inside-out? Like towns or areas you‚Äôve actually lived/surfed enough to call your stomping grounds abroad?"; ","];
    q ["    "; "is_finished"; ": false,"];
    q ["    "; "data"; ": null"];
    "}";
    EmptyString;
    "User said:";
    "I'd say, San Diego, south county, Sri lanka in kabalana ahangama midigama and towns around, Maldives at thulusdhoo and himmafushi";
    EmptyString;
    "{";
    q ["    "; "return_message"; ": "; "Solid list bro, that‚Äôs some tasty variety üåäüî•"];
    q ["Now gimme a bit more juice on each: how much time you‚Äôve actually clocked in San Diego, Sri Lanka, and Maldives? Like number of trips, how long you stayed, and how recent? Also‚Äîany local ties (friends, fam, surf crew) or just surf‚Äôn‚Äôgo?"; ","];
    q ["    "; "is_finished"; ": false,"];
    q ["    "; "data"; ": null"];
    "}";
    EmptyString;
    "User said:";
    "SD - 3 weeks once, then 7 months. known a lot of locals. was this year. sri lanka - twice for a month each- winter 2023 and 2024, knows a bunch of locals. maldives 1 month";
    EmptyString;
    "{";
    q ["    "; "return_message"; ": "; "Nice r√©sum√©, dude üëå That‚Äôs deep roots, esp. with SD locals."];
    "Next thing‚Äîwhat‚Äôs your usual surf/travel style? Like:";
    q ["You more on a budget or mid/high spender?"; ","];
    q ["    "; "is_finished"; ": false,"];
    q ["    "; "data"; ": null"];
    "}";
    EmptyString;
    "User said:";
    "budget, solo or another friend, usually remote work as well, like to party, local culture, nature, etc";
    EmptyString;
    "{";
    q ["    "; "return_message"; ": "; "Got it bro ü§ô budget shredder, mixing work, waves, and some late nights with culture + nature stoke."];
    q ["Now wave-wise‚Äîwhat‚Äôs your sweet spot? Talking size, reef vs sand, crowds, comfort with barrels vs mellower peelers. What kinda setups really fire you up?"; ","];
    q ["    "; "is_finished"; ": false,"];
    q ["    "; "data"; ": null"];
    "}";
    EmptyString;
    "User said:";
    "barrels and hard fast big waves. rather no crowd, but can surf crowds. reef and sand both work";
    EmptyString;
    "{";
    q ["    "; "return_message"; ": "; "Hell yeah, charger vibes üèÑ‚Äç‚ôÇÔ∏èüí• hunting barrels, power, and less crowd if possible, but not afraid of a packed lineup. Last piece, bro‚Äîoutside the surf: any general trip must-do‚Äôs or lifestyle things? (Like sustainability, local food, art, diving, community stuff, yoga, fishing, etc). What makes a trip feel complete for you?"; ","];
    q ["    "; "is_finished"; ": false,"];
    q ["    "; "data"; ": null"];
    "}";
    EmptyString;
    EmptyString;
    "User said:";
    "support sustainabilty, not too much on it. doing valley ball and climbing. love exploring cool spots and nature. do mobility and stretches.";
    EmptyString;
    "{";
    q ["   "; "return_message"; ": "; "Epic, that paints the full picture ü§ü so we‚Äôve got:"; EmptyString];
    q ["   "; "is_finihsed"; ": True,"];
    q ["   "; "data"; ": {"];
    q ["        "; "destinations"; ":  "; "San Diego (7mo + crew), Sri Lanka (Ahangama/Kabalana/Midigama twice), Maldives (Thulusdhoo/Himmafushi 1mo)"; ","];
    q ["         "; "travel_style"; ": "; "budget, solo/1 friend, remote-work + surf, mix of party/culture/nature"; ","];
    q ["          "; "surf_pref"; ": "; "barrels, big/fast waves, low crowd if possible, comfy on reef/sand"; ","];
    q ["          "; "extras"; ":  "; "care for sustainability, volleyball, climbing, exploring/nature missions, mobility work"; EmptyString];
    "    }";
    "} ";
    EmptyString;
    EmptyString;
    "IMPORTANT NOTICE ! - I sent the json only in the end, but you should always return  the message in this json format, and while is_finished is false data is null";
    "        "
  ].

Record ChatRequest : Type := { message : string }.

(** The dictionaries the handlers return.  No response model is attached
    to the routes, so the values are whatever Python objects the handler
    put there. *)
Record ChatResponse : Type := {
  chat_id : string;
  return_message : json;
  is_finished : json;
  data : json
}.

Record ContinueChatResponse : Type := {
  c_return_message : json;
  c_is_finished : json;
  c_data : json
}.

Record ChatHistory : Type := {
  h_chat_id : string;
  h_messages : list Turn
}.

Local Open Scope py_scope.

(** [POST /new_chat] *)
Definition new_chat (python : interpreter) (uuid4 : string)
    (openai_client : Client) (request : ChatRequest) : Py ChatResponse :=
  try_except
    (let chat_id := uuid4 in
     setitem chat_id
       [ {| role := "system"; content := meta_prompt |};
         {| role := "user"; content := message request |} ] ;;
     history <- getitem chat_id ;;
     assistant_message <-
       create openai_client
         {| model := "gpt-4.1";
            messages := history;
            max_tokens := 500;
            temperature := (7 # 10)%Q;
            store := Some true;
            response_format := Some [("type", "json_object")] |} ;;
     list_append chat_id
       {| role := "assistant"; content := assistant_message |} ;;
     try_except
       (parsed_response <- loads python assistant_message ;;
        rm <- get parsed_response "return_message" (JString assistant_message) ;;
        fin <- get parsed_response "is_finished" (JBool false) ;;
        d <- get parsed_response "data" JNull ;;
        ret {| chat_id := chat_id; return_message := rm;
               is_finished := fin; data := d |})
       (fun e =>
          match e with
          | JSONDecodeError =>
              ret {| chat_id := chat_id;
                     return_message := JString assistant_message;
                     is_finished := JBool false;
                     data := JNull |}
          | _ => raise e
          end))
    (fun e => raise (HTTPException 500 ("Error processing chat: " +:+ str e))).

(** [POST /chats/{chat_id}/continue] *)
Definition continue_chat (python : interpreter) (chat_id : string)
    (openai_client : Client) (request : ChatRequest)
  : Py ContinueChatResponse :=
  try_except
    (known <- contains chat_id ;;
     (if known then ret tt
   else raise (HTTPException 404 "Chat not found")) ;;
     list_append chat_id {| role := "user"; content := message request |} ;;
     history <- getitem chat_id ;;
     assistant_message <-
       create openai_client
         {| model := "gpt-4";
            messages := history;
            max_tokens := 500;
            temperature := (7 # 10)%Q;
            store := None;
            response_format := None |} ;;
     list_append chat_id
       {| role := "assistant"; content := assistant_message |} ;;
     try_except
       (parsed_response <- loads python assistant_message ;;
        rm <- get parsed_response "return_message" (JString assistant_message) ;;
        fin <- get parsed_response "is_finished" (JBool false) ;;
        d <- get parsed_response "data" JNull ;;
        ret {| c_return_message := rm; c_is_finished := fin; c_data := d |})
       (fun e =>
          match e with
          | JSONDecodeError =>
              ret {| c_return_message := JString assistant_message;
                     c_is_finished := JBool false;
                     c_data := JNull |}
          | _ => raise e
          end))
    (fun e =>
       match e with
       | HTTPException _ _ => raise e
       | _ => raise (HTTPException 500 ("Error processing chat: " +:+ str e))
       end).

(** [GET /chats/{chat_id}] *)
Definition get_chat_history (chat_id : string) : Py ChatHistory :=
  known <- contains chat_id ;;
  (if known then ret tt
   else raise (HTTPException 404 "Chat not found")) ;;
  history <- getitem chat_id ;;
  ret {| h_chat_id := chat_id; h_messages := history |}.

Local Close Scope py_scope.

(** The status line the framework sends for a handler's outcome. *)
Definition status_code_of {A} (o : outcome A) : Z :=
  match o with
  | Return _ => 200
  | Raise (HTTPException status_code _) => status_code
  | Raise _ => 500
  end.

(** [GET /health] *)
Definition health_check : string * string :=
  ("healthy", "Swellyo API is running").

(** ** The service over a process lifetime *)

(** One request, with what the environment supplies while it is served:
    the id [uuid4] draws and the client's behaviour. *)
Inductive http_request : Type :=
| NewChat (uuid4 : string) (openai_client : Client) (body : ChatRequest)
| ContinueChat (chat_id : string) (openai_client : Client) (body : ChatRequest)
| GetChatHistory (chat_id : string)
| Health.

Inductive http_response : Type :=
| NewChatResult (o : outcome ChatResponse)
| ContinueChatResult (o : outcome ContinueChatResponse)
| ChatHistoryResult (o : outcome ChatHistory)
| HealthResult (body : string * string).

Definition serve (python : interpreter) (r : http_request) (chats : Chats)
  : Chats * http_response :=
  match r with
  | NewChat uuid4 openai_client body =>
      let '(chats', o) := new_chat python uuid4 openai_client body chats in
      (chats', NewChatResult o)
  | ContinueChat chat_id openai_client body =>
      let '(chats', o) :=
        continue_chat python chat_id openai_client body chats in
      (chats', ContinueChatResult o)
  | GetChatHistory chat_id =>
      let '(chats', o) := get_chat_history chat_id chats in
      (chats', ChatHistoryResult o)
  | Health => (chats, HealthResult health_check)
  end.

(** Requests served one after the other (the order in which their
    handlers run), from the store [chats]. *)
Fixpoint run (python : interpreter) (rs : list http_request) (chats : Chats)
  : Chats * list http_response :=
  match rs with
  | [] => (chats, [])
  | r :: rs' =>
      let '(chats1, resp) := serve python r chats in
      let '(chats2, resps) := run python rs' chats1 in
      (chats2, resp :: resps)
  end.

(** The ids [uuid4] draws during a run. *)
Fixpoint draws (rs : list http_request) : list string :=
  match rs with
  | [] => []
  | NewChat uuid4 _ _ :: rs' => uuid4 :: draws rs'
  | _ :: rs' => draws rs'
  end.

(** The [chat_id]s handed to callers by successful [new_chat] calls. *)
Fixpoint returned_ids (resps : list http_response) : list string :=
  match resps with
  | [] => []
  | NewChatResult (Return resp) :: resps' => chat_id resp :: returned_ids resps'
  | _ :: resps' => returned_ids resps'
  end.

(** ** Vocabulary of the statements *)

(** A default CPython with all of its recursion limit left to
    [json.loads]: the most headroom a default interpreter can have (the
    frames on the stack at the call take some of it). *)
Definition cpython : interpreter :=
  {| recursion_headroom := 1000; int_max_str_digits := 4300 |}.

(** An interpreter whose limits are out of reach of texts shorter than
    [n] characters: what it decodes is JSON, what it rejects is not. *)
Definition roomy (n : nat) : interpreter :=
  {| recursion_headroom := n; int_max_str_digits := 0 |}.

(** [n] copies of [s], one after the other. *)
Fixpoint copies (n : nat) (s : string) : string :=
  match n with
  | O => EmptyString
  | S n' => s +:+ copies n' s
  end.

Definition system_turn : Turn := {| role := "system"; content := meta_prompt |}.
Definition user_turn (m : string) : Turn := {| role := "user"; content := m |}.
Definition assistant_turn (a : string) : Turn :=
  {| role := "assistant"; content := a |}.

(** The request a new session sends to the model. *)
Definition new_chat_request (m : string) : CompletionRequest :=
  {| model := "gpt-4.1";
     messages := [system_turn; user_turn m];
     max_tokens := 500;
     temperature := (7 # 10)%Q;
     store := Some true;
     response_format := Some [("type", "json_object")] |}.

(** The request a continued session sends, for the history [history]
    (the new user message included). *)
Definition continue_request (history : list Turn) : CompletionRequest :=
  {| model := "gpt-4";
     messages := history;
     max_tokens := 500;
     temperature := (7 # 10)%Q;
     store := None;
     response_format := None |}.

(** The spec's invariant on a structured reply. *)
Definition reply_invariant (fin d : json) : Prop :=
  (fin = JBool false -> d = JNull) /\ (d <> JNull -> fin = JBool true).

(** [fin] and [d] are what the parsing block takes from the text [a]. *)
Definition passed_through (python : interpreter) (a : string)
    (fin d : json) : Prop :=
  match json_loads python a with
  | Raise JSONDecodeError => fin = JBool false /\ d = JNull
  | Raise _ => False
  | Return v =>
      exists o, v = JObject o
        /\ fin = default (JBool false) (dict_lookup "is_finished" o)
        /\ d = default JNull (dict_lookup "data" o)
  end.

(** The model's own text respects the invariant (a text that is not a
    JSON object has the two entries of the fallback). *)
Definition model_keeps_invariant (python : interpreter) (a : string) : Prop :=
  match json_loads python a with
  | Return (JObject o) =>
      reply_invariant (default (JBool false) (dict_lookup "is_finished" o))
                      (default JNull (dict_lookup "data" o))
  | _ => True
  end.

(** The four keys of a complete [data] object. *)
Definition full_data (dat : list (string * json)) : Prop :=
  is_Some (dict_lookup "destinations" dat)
  /\ is_Some (dict_lookup "travel_style" dat)
  /\ is_Some (dict_lookup "surf_pref" dat)
  /\ is_Some (dict_lookup "extras" dat).

(** A [new_chat] outcome and a [continue_chat] outcome carry the same
    structured reply, or raise the same exception. *)
Definition same_reply (o : outcome ChatResponse)
    (o' : outcome ContinueChatResponse) : Prop :=
  match o, o' with
  | Return r, Return r' =>
      return_message r = c_return_message r'
      /\ is_finished r = c_is_finished r' /\ data r = c_data r'
  | Raise e, Raise e' => e = e'
  | _, _ => False
  end.


(** What the parsing block of both handlers makes of the reply text [a]:
    the three values of the structured reply, or the exception that
    leaves the block. *)
Definition parsed_reply (python : interpreter) (a : string)
  : outcome (json * json * json) :=
  match json_loads python a with
  | Raise JSONDecodeError => Return (JString a, JBool false, JNull)
  | Raise e => Raise e
  | Return (JObject d) =>
      Return (default (JString a) (dict_lookup "return_message" d),
              default (JBool false) (dict_lookup "is_finished" d),
              default JNull (dict_lookup "data" d))
  | Return v =>
      Raise (AttributeError
               ("'" +:+ type_name v +:+ "' object has no attribute 'get'"))
  end.

Definition new_chat_outcome (python : interpreter) (uuid4 a : string)
  : outcome ChatResponse :=
  match parsed_reply python a with
  | Return (rm, fin, d) =>
      Return {| chat_id := uuid4; return_message := rm;
                is_finished := fin; data := d |}
  | Raise e => Raise (HTTPException 500 ("Error processing chat: " +:+ str e))
  end.

Definition continue_chat_outcome (python : interpreter) (a : string)
  : outcome ContinueChatResponse :=
  match parsed_reply python a with
  | Return (rm, fin, d) =>
      Return {| c_return_message := rm; c_is_finished := fin; c_data := d |}
  | Raise e => Raise (HTTPException 500 ("Error processing chat: " +:+ str e))
  end.

(** ** Further vocabulary *)

(** A reply text the parsing block turns into a structured reply:
    [json.loads] rejects it with [JSONDecodeError], or decodes it to an
    object. *)
Definition answerable (python : interpreter) (a : string) : Prop :=
  json_loads python a = Raise JSONDecodeError
  \/ exists o, json_loads python a = Return (JObject o).

(** The session a request may write to. *)
Definition target (r : http_request) : option string :=
  match r with
  | NewChat uuid4 _ _ => Some uuid4
  | ContinueChat chat_id _ _ => Some chat_id
  | GetChatHistory _ => None
  | Health => None
  end.

Definition dialogue_turn (t : Turn) : Prop :=
  role t = "user" \/ role t = "assistant".

(** The shape of a stored session: the meta-prompt, the first user
    message, then user and assistant turns only. *)
Definition well_formed_session (h : list Turn) : Prop :=
  exists m rest,
    h = system_turn :: user_turn m :: rest /\ Forall dialogue_turn rest.

(** The characters a JSON value can start with: a quotation mark, a
    brace, a bracket, a minus sign, a digit, or the first letter of
    [null], [true], [false], [NaN], [Infinity]. *)
Definition starts_value (c : ascii) : bool :=
  let n := Decoder.ord c in
  (n =? 34)%N || (n =? 123)%N || (n =? 91)%N || (n =? 45)%N
  || Decoder.is_digit c
  || (n =? 110)%N || (n =? 116)%N || (n =? 102)%N || (n =? 78)%N || (n =? 73)%N.

(** The text is blank, or its first character after the leading
    whitespace cannot start a JSON value (ordinary prose, mostly). *)
Definition starts_as_prose (a : string) : bool :=
  match Decoder.skip_ws a with
  | EmptyString => true
  | String c _ => negb (starts_value c)
  end.

(** ** The mock service of [main_mock.py] *)

Module Mock.

(** [needle in haystack] on strings. *)
Fixpoint str_contains (needle haystack : string) : bool :=
  String.prefix needle haystack
  || match haystack with
     | EmptyString => false
     | String _ rest => str_contains needle rest
     end.

(** The response models of the mock's routes. *)
Record ChatResponse : Type := {
  chat_id : string;
  return_message : string
}.

Record ContinueChatResponse : Type := {
  c_return_message : string
}.

Section Handlers.

(** [str.lower], applied to the message before the substring tests; the
    handlers are read for any such function. *)
Variable lower : string -> string.

Local Open Scope py_scope.

(** [POST /new_chat] *)
Definition new_chat (uuid4 : string) (request : ChatRequest)
  : Py ChatResponse :=
  try_except
    (let chat_id := uuid4 in
     setitem chat_id [ {| role := "user"; content := message request |} ] ;;
     let mock_response :=
       if str_contains "hello" (lower (message request)) then
         "Hello! I'm a mock AI assistant. How can I help you today?"
       else if str_contains "how are you" (lower (message request)) then
         "I'm doing well, thank you for asking! I'm here to help with any questions you might have."
       else if str_contains "weather" (lower (message request)) then
         "I'm a mock AI, so I can't check real weather data. But I hope you're having a great day!"
       else
         "I received your message: '" +:+ message request
         +:+ "'. This is a mock response from the Swellyo LLM API." in
     list_append chat_id {| role := "assistant"; content := mock_response |} ;;
     ret {| chat_id := chat_id; return_message := mock_response |})
    (fun e => raise (HTTPException 500 ("Error processing chat: " +:+ str e))).

(** [POST /chats/{chat_id}/continue] *)
Definition continue_chat (chat_id : string) (request : ChatRequest)
  : Py ContinueChatResponse :=
  try_except
    (known <- contains chat_id ;;
     (if known then ret tt
      else raise (HTTPException 404 "Chat not found")) ;;
     list_append chat_id {| role := "user"; content := message request |} ;;
     let mock_response :=
       if str_contains "hello" (lower (message request)) then
         "Hello again! I'm still here to help you. What else would you like to know?"
       else if str_contains "how are you" (lower (message request)) then
         "I'm still doing well! Thanks for asking again. How can I assist you further?"
       else if str_contains "weather" (lower (message request)) then
         "I'm still a mock AI, so I can't check real weather data. But I hope you're having a great day!"
       else if str_contains "thank" (lower (message request)) then
         "You're very welcome! I'm happy to help. Is there anything else you'd like to know?"
       else
         "I received your follow-up message: '" +:+ message request
         +:+ "'. This is a mock response continuing our conversation." in
     list_append chat_id {| role := "assistant"; content := mock_response |} ;;
     ret {| c_return_message := mock_response |})
    (fun e =>
       match e with
       | HTTPException _ _ => raise e
       | _ => raise (HTTPException 500 ("Error processing chat: " +:+ str e))
       end).

(** [GET /chats/{chat_id}] *)
Definition get_chat_history (chat_id : string) : Py ChatHistory :=
  known <- contains chat_id ;;
  (if known then ret tt
   else raise (HTTPException 404 "Chat not found")) ;;
  history <- getitem chat_id ;;
  ret {| h_chat_id := chat_id; h_messages := history |}.

Local Close Scope py_scope.

(** One request to the mock, with the id [uuid4] draws for it. *)
Inductive http_request : Type :=
| NewChat (uuid4 : string) (body : ChatRequest)
| ContinueChat (chat_id : string) (body : ChatRequest)
| GetChatHistory (chat_id : string).

(** The store after the request is served. *)
Definition serve (r : http_request) (chats : Chats) : Chats :=
  match r with
  | NewChat uuid4 body => fst (new_chat uuid4 body chats)
  | ContinueChat chat_id body => fst (continue_chat chat_id body chats)
  | GetChatHistory chat_id => fst (get_chat_history chat_id chats)
  end.

Definition run (rs : list http_request) (chats : Chats) : Chats :=
  fold_left (fun c r => serve r c) rs chats.

End Handlers.

(** A session of the mock: user and assistant turns in strict
    alternation, a user turn first, an assistant turn last. *)
Fixpoint alternating (h : list Turn) : Prop :=
  match h with
  | [] => True
  | u :: a :: rest =>
      role u = "user" /\ role a = "assistant" /\ alternating rest
  | _ => False
  end.

End Mock.

(** ** Facts on the decoder *)

Module DecoderFacts.
Import Decoder.

Lemma skip_ws_length (s : string) :
  String.length (skip_ws s) <= String.length s.
Proof.
  induction s as [|c s IH]; simpl; [lia|].
  destruct (is_ws c); simpl; lia.
Qed.

Lemma scanstring_shorter (n : nat) :
  forall s acc v r,
    String.length s <= n ->
    scanstring s acc = Scanned v r -> String.length r < String.length s.
Proof.
  induction n as [|n IH]; intros s acc v r Hn H.
  - destruct s; simpl in *; [discriminate | lia].
  - destruct s as [|c s]; simpl in H; [discriminate|].
    cbn [String.length] in Hn.
    repeat (case_match; try discriminate); simplify_eq;
      cbn [String.length] in *; try lia;
      apply IH in H; cbn [String.length] in *; lia.
Qed.

Lemma scanstring_fuel (n : nat) :
  forall s acc, String.length s <= n -> scanstring s acc <> OutOfFuel.
Proof.
  induction n as [|n IH]; intros s acc Hn.
  - destruct s; simpl in *; [discriminate | lia].
  - destruct s as [|c s]; simpl; [discriminate|].
    cbn [String.length] in Hn.
    repeat (case_match; try discriminate); simplify_eq;
      cbn [String.length] in *; apply IH; cbn [String.length] in *; lia.
Qed.

Lemma skip_ws_cons (s : string) (c : ascii) (r : string) :
  skip_ws s = String c r -> String.length r < String.length s.
Proof.
  intros H. pose proof (skip_ws_length s) as L. rewrite H in L.
  cbn [String.length] in L. lia.
Qed.

Lemma span_digits_length (s ds r : string) :
  span_digits s = (ds, r) -> String.length r <= String.length s.
Proof.
  revert ds r. induction s as [|c s IH]; intros ds r H; simpl in H.
  - injection H as <- <-. done.
  - destruct (is_digit c).
    + destruct (span_digits s) as [ds' r'] eqn:E. injection H as <- <-.
      specialize (IH _ _ eq_refl). cbn [String.length]. lia.
    + injection H as <- <-. done.
Qed.

(** Splits every case of a number matcher and closes it by the lengths
    [span_digits] leaves. *)
Ltac by_span_digits :=
  repeat (case_match; try discriminate); simplify_eq;
  cbn [String.length] in *; try lia;
  match goal with
  | E : span_digits _ = _ |- _ =>
      apply span_digits_length in E; cbn [String.length] in *; lia
  end.

Lemma match_integer_shorter (s : string) (neg : bool) (ds r : string) :
  match_integer s = Some (neg, ds, r) -> String.length r < String.length s.
Proof.
  unfold match_integer. intros H.
  by_span_digits.
Qed.

Lemma match_frac_length (s f r : string) :
  match_frac s = (f, r) -> String.length r <= String.length s.
Proof.
  unfold match_frac. intros H.
  by_span_digits.
Qed.

Lemma match_exp_length (s e r : string) :
  match_exp s = (e, r) -> String.length r <= String.length s.
Proof.
  unfold match_exp. intros H.
  by_span_digits.
Qed.

Lemma match_number_shorter (max_digits : nat) (s : string) (v : json)
    (r : string) :
  match_number max_digits s = Some (Scanned v r) ->
  String.length r < String.length s.
Proof.
  unfold match_number. intros H.
  destruct (match_integer s) as [[[neg ds] r0]|] eqn:Ei; [|discriminate].
  destruct (match_frac r0) as [f r1] eqn:Ef.
  destruct (match_exp r1) as [e r2] eqn:Ee.
  apply match_integer_shorter in Ei. apply match_frac_length in Ef.
  apply match_exp_length in Ee.
  assert (r = r2) as ->
    by (destruct f, e; repeat case_match; congruence).
  lia.
Qed.

Lemma match_number_fuel (max_digits : nat) (s : string) :
  match_number max_digits s <> Some OutOfFuel.
Proof.
  unfold match_number. repeat case_match; congruence.
Qed.

Lemma strip_prefix_length (w s r : string) :
  strip_prefix w s = Some r ->
  String.length s = String.length w + String.length r.
Proof.
  revert s. induction w as [|a w IH]; intros s H; simpl in H.
  - by injection H as ->.
  - destruct s as [|b s]; [discriminate|].
    destruct (Ascii.eqb a b); [|discriminate].
    apply IH in H. cbn [String.length]. lia.
Qed.

Lemma scan_constant_shorter (max_digits : nat) (s : string) (v : json)
    (r : string) :
  scan_constant max_digits s = Scanned v r ->
  String.length r < String.length s.
Proof.
  unfold scan_constant. intros H.
  repeat (case_match; try discriminate); simplify_eq;
    repeat match goal with
    | E : strip_prefix _ _ = Some _ |- _ =>
        apply strip_prefix_length in E; cbn [String.length] in E
    | E : match_number _ _ = Some (Scanned _ _) |- _ =>
        apply match_number_shorter in E
    end; lia.
Qed.

Lemma scan_constant_fuel (max_digits : nat) (s : string) :
  scan_constant max_digits s <> OutOfFuel.
Proof.
  unfold scan_constant. pose proof (match_number_fuel max_digits s).
  repeat case_match; congruence.
Qed.

Lemma scan_shorter (m fuel : nat) :
  forall depth s,
    shorter s (scan_once m fuel depth s)
    /\ shorter s (JSONArray m fuel depth s)
    /\ (forall acc, shorter s (array_items m fuel depth s acc))
    /\ shorter s (JSONObject m fuel depth s)
    /\ (forall acc, shorter s (object_items m fuel depth s acc)).
Proof.
  induction fuel as [|fuel IH]; intros depth s.
  { repeat split; repeat intro; discriminate. }
  repeat split.
  - intros v r H. simpl in H. destruct s as [|c s]; [discriminate|].
    destruct (ord c =? 34)%N.
    { destruct (scanstring s []) as [w rest| | | |] eqn:E; try discriminate.
      injection H as <- <-.
      apply (scanstring_shorter _ _ _ _ _ (le_n _)) in E.
      cbn [String.length]. lia. }
    destruct (ord c =? 123)%N.
    { destruct depth as [|depth]; [discriminate|].
      apply (proj1 (proj2 (proj2 (proj2 (IH depth s))))) in H.
      cbn [String.length]. lia. }
    destruct (ord c =? 91)%N.
    { destruct depth as [|depth]; [discriminate|].
      apply (proj1 (proj2 (IH depth s))) in H. cbn [String.length]. lia. }
    by apply scan_constant_shorter in H.
  - intros v r H. simpl in H.
    pose proof (skip_ws_length s) as L.
    destruct (skip_ws s) as [|c s'] eqn:E.
    + apply (proj1 (proj2 (proj2 (IH depth EmptyString)))) in H.
      cbn [String.length] in H. lia.
    + cbn [String.length] in L. destruct (ord c =? 93)%N.
      * injection H as <- <-. lia.
      * apply (proj1 (proj2 (proj2 (IH depth _)))) in H.
        cbn [String.length] in H. lia.
  - intros acc v r H. simpl in H.
    destruct (scan_once m fuel depth s) as [w rest| | | |] eqn:E;
      try discriminate.
    apply (proj1 (IH depth s)) in E.
    destruct (skip_ws rest) as [|c s'] eqn:Ew; [discriminate|].
    apply skip_ws_cons in Ew.
    destruct (ord c =? 93)%N; [injection H as <- <-; lia|].
    destruct (ord c =? 44)%N; [|discriminate].
    apply (proj1 (proj2 (proj2 (IH depth _)))) in H.
    pose proof (skip_ws_length s'). lia.
  - intros v r H. simpl in H.
    destruct (skip_ws s) as [|c s'] eqn:Ew; [discriminate|].
    apply skip_ws_cons in Ew.
    destruct (ord c =? 125)%N; [injection H as <- <-; lia|].
    destruct (ord c =? 34)%N; [|discriminate].
    apply (proj2 (proj2 (proj2 (proj2 (IH depth _))))) in H. lia.
  - intros acc v r H. simpl in H.
    destruct (scanstring s []) as [key rest| | | |] eqn:E; try discriminate.
    apply (scanstring_shorter _ _ _ _ _ (le_n _)) in E.
    destruct (skip_ws rest) as [|c s1] eqn:Ew; [discriminate|].
    apply skip_ws_cons in Ew.
    destruct (ord c =? 58)%N; [|discriminate].
    destruct (scan_once m fuel depth (skip_ws s1)) as [w rest'| | | |] eqn:Ev;
      try discriminate.
    apply (proj1 (IH depth _)) in Ev. pose proof (skip_ws_length s1).
    destruct (skip_ws rest') as [|c' s2] eqn:Ew'; [discriminate|].
    apply skip_ws_cons in Ew'.
    destruct (ord c' =? 125)%N; [injection H as <- <-; lia|].
    destruct (ord c' =? 44)%N; [|discriminate].
    destruct (skip_ws s2) as [|q s3] eqn:Ew''; [discriminate|].
    apply skip_ws_cons in Ew''.
    destruct (ord q =? 34)%N; [|discriminate].
    apply (proj2 (proj2 (proj2 (proj2 (IH depth _))))) in H. lia.
Qed.

Lemma scan_fuel (m fuel : nat) :
  forall depth s,
    (3 * String.length s + 1 <= fuel -> scan_once m fuel depth s <> OutOfFuel)
    /\ (3 * String.length s + 3 <= fuel ->
        JSONArray m fuel depth s <> OutOfFuel)
    /\ (3 * String.length s + 2 <= fuel ->
        forall acc, array_items m fuel depth s acc <> OutOfFuel)
    /\ (3 * String.length s + 3 <= fuel ->
        JSONObject m fuel depth s <> OutOfFuel)
    /\ (3 * String.length s + 2 <= fuel ->
        forall acc, object_items m fuel depth s acc <> OutOfFuel).
Proof.
  induction fuel as [|fuel IH]; intros depth s.
  { repeat split; intros; lia. }
  repeat split.
  - intros Hf. simpl. destruct s as [|c s]; [discriminate|].
    cbn [String.length] in Hf.
    destruct (ord c =? 34)%N.
    { pose proof (scanstring_fuel _ s [] (le_n _)).
      by destruct (scanstring s []). }
    destruct (ord c =? 123)%N.
    { destruct depth as [|depth]; [discriminate|].
      apply (proj1 (proj2 (proj2 (proj2 (IH depth s))))). lia. }
    destruct (ord c =? 91)%N.
    { destruct depth as [|depth]; [discriminate|].
      apply (proj1 (proj2 (IH depth s))). lia. }
    apply scan_constant_fuel.
  - intros Hf. simpl. pose proof (skip_ws_length s) as L.
    destruct (skip_ws s) as [|c s'] eqn:E.
    + apply (proj1 (proj2 (proj2 (IH depth EmptyString)))).
      cbn [String.length]. lia.
    + cbn [String.length] in L. destruct (ord c =? 93)%N; [discriminate|].
      apply (proj1 (proj2 (proj2 (IH depth _)))). cbn [String.length]. lia.
  - intros Hf acc. simpl.
    pose proof (proj1 (IH depth s)) as Hs.
    destruct (scan_once m fuel depth s) as [w rest| | | |] eqn:E;
      [|discriminate|apply Hs; lia|discriminate|discriminate].
    apply (proj1 (scan_shorter m fuel depth s)) in E.
    destruct (skip_ws rest) as [|c s'] eqn:Ew; [discriminate|].
    apply skip_ws_cons in Ew.
    destruct (ord c =? 93)%N; [discriminate|].
    destruct (ord c =? 44)%N; [|discriminate].
    apply (proj1 (proj2 (proj2 (IH depth _)))).
    pose proof (skip_ws_length s'). lia.
  - intros Hf. simpl.
    destruct (skip_ws s) as [|c s'] eqn:Ew; [discriminate|].
    apply skip_ws_cons in Ew.
    destruct (ord c =? 125)%N; [discriminate|].
    destruct (ord c =? 34)%N; [|discriminate].
    apply (proj2 (proj2 (proj2 (proj2 (IH depth _))))). lia.
  - intros Hf acc. simpl.
    pose proof (scanstring_fuel _ s [] (le_n _)).
    destruct (scanstring s []) as [key rest| | | |] eqn:E;
      [|discriminate|done|discriminate|discriminate].
    apply (scanstring_shorter _ _ _ _ _ (le_n _)) in E.
    destruct (skip_ws rest) as [|c s1] eqn:Ew; [discriminate|].
    apply skip_ws_cons in Ew.
    destruct (ord c =? 58)%N; [|discriminate].
    pose proof (skip_ws_length s1).
    pose proof (proj1 (IH depth (skip_ws s1))) as Hs.
    destruct (scan_once m fuel depth (skip_ws s1)) as [w rest'| | | |] eqn:Ev;
      [|discriminate|apply Hs; lia|discriminate|discriminate].
    apply (proj1 (scan_shorter _ _ _ _)) in Ev.
    destruct (skip_ws rest') as [|c' s2] eqn:Ew'; [discriminate|].
    apply skip_ws_cons in Ew'.
    destruct (ord c' =? 125)%N; [discriminate|].
    destruct (ord c' =? 44)%N; [|discriminate].
    destruct (skip_ws s2) as [|q s3] eqn:Ew''; [discriminate|].
    apply skip_ws_cons in Ew''.
    destruct (ord q =? 34)%N; [|discriminate].
    apply (proj2 (proj2 (proj2 (proj2 (IH depth _))))). lia.
Qed.

(** The decoder never runs out of fuel: the exception [json_loads] gives
    is the one [json.loads] raises. *)
Lemma decode_fuel (python : interpreter) (s : string) :
  decode python s <> OutOfFuel.
Proof.
  unfold decode. pose proof (skip_ws_length s).
  pose proof (proj1 (scan_fuel (int_max_str_digits python) (fuel_for s)
                       (recursion_headroom python) (skip_ws s))) as Hs.
  destruct (scan_once _ (fuel_for s) _ (skip_ws s)) as [v rest| | | |];
    [by destruct (skip_ws rest) | discriminate | | discriminate | discriminate].
  apply Hs. unfold fuel_for. lia.
Qed.

Lemma json_loads_JSONDecodeError (python : interpreter) (s : string) :
  json_loads python s = Raise JSONDecodeError <-> decode python s = DecodeError.
Proof.
  unfold json_loads. pose proof (decode_fuel python s).
  destruct (decode python s); split; intros; congruence.
Qed.

Example loads_object :
  json_loads cpython
    (dquote "{'return_message': 'hi', 'is_finished': false, 'data': null}")
  = Return (JObject [ ("return_message", JString "hi");
                      ("is_finished", JBool false); ("data", JNull) ]).
Proof. vm_compute. reflexivity. Qed.

Example loads_duplicate_key :
  json_loads cpython (dquote "{'a': 1, 'b': [true, 2.5e3], 'a': -3}")
  = Return (JObject [ ("a", JInt (-3));
                      ("b", JArray [JBool true; JFloat "2.5e3"]) ]).
Proof. vm_compute. reflexivity. Qed.

Example loads_scalars :
  json_loads cpython "42" = Return (JInt 42)
  /\ json_loads cpython " null " = Return JNull
  /\ json_loads cpython (dquote "'Gnarly'") = Return (JString "Gnarly")
  /\ json_loads cpython "[]" = Return (JArray []).
Proof. vm_compute. auto. Qed.

Example loads_rejects :
  json_loads cpython "Sure thing dude" = Raise JSONDecodeError
  /\ json_loads cpython EmptyString = Raise JSONDecodeError
  /\ json_loads cpython "[1,]" = Raise JSONDecodeError
  /\ json_loads cpython "01" = Raise JSONDecodeError
  /\ json_loads cpython (dquote "{'a': 1} trailing") = Raise JSONDecodeError
  /\ json_loads cpython "{'a': 1}" = Raise JSONDecodeError.
Proof. vm_compute. auto 10. Qed.

(** Past the limits: 1001 brackets, closed or not, are more than any
    default interpreter can enter; 4301 digits are more than [int] takes,
    whatever follows them. *)
Example loads_limits :
  json_loads cpython (copies 1001 "[")
  = Raise (RecursionError
             "maximum recursion depth exceeded while decoding a JSON array from a unicode string")
  /\ json_loads (roomy 2000) (copies 1001 "[") = Raise JSONDecodeError
  /\ json_loads cpython (copies 4301 "7" +:+ " and more")
     = Raise (ValueError
                "Exceeds the limit (4300 digits) for integer string conversion: value has 4301 digits; use sys.set_int_max_str_digits() to increase the limit")
  /\ json_loads cpython (copies 4300 "7" +:+ " and more")
     = Raise JSONDecodeError.
Proof. vm_compute. auto. Qed.

End DecoderFacts.

(** ** Lemmas on the handlers *)

Lemma contains_Some (id : string) (chats : Chats) (h : list Turn) :
  chats !! id = Some h -> contains id chats = (chats, Return true).
Proof.
  intros H. unfold contains. rewrite bool_decide_eq_true_2; eauto.
Qed.

Lemma contains_None (id : string) (chats : Chats) :
  chats !! id = None -> contains id chats = (chats, Return false).
Proof.
  intros H. unfold contains. rewrite bool_decide_eq_false_2; [done|].
  rewrite H. by intros [? ?].
Qed.

(** The three exceptions [json.loads] raises. *)
Lemma json_loads_raises (python : interpreter) (a : string) (e : exception) :
  json_loads python a = Raise e ->
  e = JSONDecodeError
  \/ (exists msg, e = RecursionError msg) \/ (exists msg, e = ValueError msg).
Proof.
  unfold json_loads. destruct (Decoder.decode python a); intros [= <-]; eauto.
Qed.

Section NewChat.
Variables (python : interpreter) (uuid4 : string) (openai_client : Client)
    (request : ChatRequest).
Variable chats : Chats.
Let m := message request.

(** The client raises: the session stays behind with its two turns. *)
Lemma new_chat_failure (msg : string) :
  openai_client (new_chat_request m) = Failure msg ->
  new_chat python uuid4 openai_client request chats
  = (<[uuid4 := [system_turn; user_turn m]]> chats,
     Raise (HTTPException 500 ("Error processing chat: " +:+ msg))).
Proof.
  intros H. unfold new_chat, try_except, bind, setitem, getitem, create.
  rewrite lookup_insert_eq.
  fold system_turn. fold (user_turn (message request)).
  fold (new_chat_request (message request)). fold m. rewrite H. done.
Qed.

(** The client answers [a]. *)
Lemma new_chat_content (a : string) :
  openai_client (new_chat_request m) = Content a ->
  new_chat python uuid4 openai_client request chats
  = (<[uuid4 := [system_turn; user_turn m; assistant_turn a]]> chats,
     new_chat_outcome python uuid4 a).
Proof.
  intros H.
  unfold new_chat, try_except, bind, setitem, getitem, create, list_append.
  rewrite lookup_insert_eq.
  fold system_turn. fold (user_turn (message request)).
  fold (new_chat_request (message request)). fold m. rewrite H.
  unfold ret at 1. rewrite lookup_insert_eq, insert_insert_eq.
  fold (assistant_turn a).
  unfold new_chat_outcome, parsed_reply, loads, get, ret, raise.
  destruct (json_loads python a) as [[]|[]]; reflexivity.
Qed.
End NewChat.

Section ContinueChat.
Variables (python : interpreter) (chat_id : string) (openai_client : Client)
    (request : ChatRequest).
Variable chats : Chats.
Let m := message request.

(** The id is not a key of [chats]: nothing is touched, nothing is sent. *)
Lemma continue_chat_unknown :
  chats !! chat_id = None ->
  continue_chat python chat_id openai_client request chats
  = (chats, Raise (HTTPException 404 "Chat not found")).
Proof.
  intros H. unfold continue_chat, try_except, bind.
  rewrite (contains_None _ _ H). reflexivity.
Qed.

(** The client raises: the user turn is already in the history. *)
Lemma continue_chat_failure (h : list Turn) (msg : string) :
  chats !! chat_id = Some h ->
  openai_client (continue_request (h ++ [user_turn m])) = Failure msg ->
  continue_chat python chat_id openai_client request chats
  = (<[chat_id := h ++ [user_turn m]]> chats,
     Raise (HTTPException 500 ("Error processing chat: " +:+ msg))).
Proof.
  intros Hh H. unfold continue_chat, try_except, bind.
  rewrite (contains_Some _ _ _ Hh).
  unfold ret at 1, list_append at 1. rewrite Hh.
  unfold getitem, create. rewrite lookup_insert_eq.
  fold (user_turn (message request)). fold m.
  fold (continue_request (h ++ [user_turn m])). rewrite H. reflexivity.
Qed.

(** The client answers [a]. *)
Lemma continue_chat_content (h : list Turn) (a : string) :
  chats !! chat_id = Some h ->
  openai_client (continue_request (h ++ [user_turn m])) = Content a ->
  continue_chat python chat_id openai_client request chats
  = (<[chat_id := h ++ [user_turn m; assistant_turn a]]> chats,
     continue_chat_outcome python a).
Proof.
  intros Hh H. unfold continue_chat, try_except, bind.
  rewrite (contains_Some _ _ _ Hh).
  unfold ret at 1, list_append at 1. rewrite Hh.
  unfold getitem, create. rewrite lookup_insert_eq.
  fold (user_turn (message request)). fold m.
  fold (continue_request (h ++ [user_turn m])). rewrite H.
  unfold ret at 1, list_append. rewrite lookup_insert_eq, insert_insert_eq.
  fold (assistant_turn a). rewrite <- app_assoc. simpl app.
  unfold continue_chat_outcome, parsed_reply, loads, get, ret, raise.
  pose proof (json_loads_raises python a) as Hr.
  destruct (json_loads python a) as [[]|e]; try reflexivity.
  destruct (Hr e eq_refl) as [->|[[msg ->]|[msg ->]]]; reflexivity.
Qed.
End ContinueChat.

Lemma get_chat_history_known (chat_id : string) (chats : Chats) (h : list Turn)
    :
  chats !! chat_id = Some h ->
  get_chat_history chat_id chats
  = (chats, Return {| h_chat_id := chat_id; h_messages := h |}).
Proof.
  intros H. unfold get_chat_history, bind.
  rewrite (contains_Some _ _ _ H). unfold ret at 1, getitem. rewrite H.
  reflexivity.
Qed.

Lemma get_chat_history_unknown (chat_id : string) (chats : Chats) :
  chats !! chat_id = None ->
  get_chat_history chat_id chats
  = (chats, Raise (HTTPException 404 "Chat not found")).
Proof.
  intros H. unfold get_chat_history, bind.
  rewrite (contains_None _ _ H). reflexivity.
Qed.

Lemma new_chat_outcome_Return (python : interpreter)
    (uuid4 a : string) (resp : ChatResponse) :
  new_chat_outcome python uuid4 a = Return resp ->
  exists rm fin d,
    parsed_reply python a = Return (rm, fin, d)
    /\ resp = {| chat_id := uuid4; return_message := rm;
                 is_finished := fin; data := d |}.
Proof.
  unfold new_chat_outcome.
  destruct (parsed_reply python a) as [[[rm fin] d]|e]; [|discriminate].
  intros [= <-]. by exists rm, fin, d.
Qed.

Lemma continue_chat_outcome_Return (python : interpreter)
    (a : string) (resp : ContinueChatResponse) :
  continue_chat_outcome python a = Return resp ->
  exists rm fin d,
    parsed_reply python a = Return (rm, fin, d)
    /\ resp = {| c_return_message := rm; c_is_finished := fin; c_data := d |}.
Proof.
  unfold continue_chat_outcome.
  destruct (parsed_reply python a) as [[[rm fin] d]|e]; [|discriminate].
  intros [= <-]. by exists rm, fin, d.
Qed.

(** A successful [new_chat] had an answer from the client. *)
Lemma new_chat_Return (python : interpreter)
    (uuid4 : string) (openai_client : Client)
    (request : ChatRequest) (chats chats' : Chats) (resp : ChatResponse) :
  new_chat python uuid4 openai_client request chats = (chats', Return resp) ->
  exists a,
    openai_client (new_chat_request (message request)) = Content a
    /\ chats' = <[uuid4 := [system_turn; user_turn (message request);
                            assistant_turn a]]> chats
    /\ new_chat_outcome python uuid4 a = Return resp.
Proof.
  intros H.
  destruct (openai_client (new_chat_request (message request)))
      as [a|msg] eqn:E.
  - rewrite (new_chat_content python _ _ _ _ _ E) in H. injection H as <- Ho.
    eauto.
  - rewrite (new_chat_failure python _ _ _ _ _ E) in H. discriminate.
Qed.

(** A successful [continue_chat] found the session and had an answer. *)
Lemma continue_chat_Return (python : interpreter)
    (chat_id : string) (openai_client : Client)
    (request : ChatRequest) (chats chats' : Chats)
    (resp : ContinueChatResponse) :
  continue_chat python chat_id openai_client request chats
      = (chats', Return resp) ->
  exists h a,
    chats !! chat_id = Some h
    /\ openai_client (continue_request (h ++ [user_turn (message request)]))
       = Content a
    /\ chats' = <[chat_id := h ++ [user_turn (message request);
                                   assistant_turn a]]> chats
    /\ continue_chat_outcome python a = Return resp.
Proof.
  intros H. destruct (chats !! chat_id) as [h|] eqn:Hh.
  - destruct (openai_client
                (continue_request (h ++ [user_turn (message request)])))
      as [a|msg] eqn:E.
    + rewrite (continue_chat_content python _ _ _ _ _ _ Hh E) in H.
      injection H as <- Ho. eauto 6.
    + rewrite (continue_chat_failure python _ _ _ _ _ _ Hh E) in H.
      discriminate.
  - rewrite (continue_chat_unknown python _ _ _ _ Hh) in H. discriminate.
Qed.

Lemma parsed_reply_not_json (python : interpreter) (a : string) :
  json_loads python a = Raise JSONDecodeError -> parsed_reply python a
      = Return (JString a, JBool false, JNull).
Proof. intros H. unfold parsed_reply. by rewrite H. Qed.

Lemma parsed_reply_object (python : interpreter)
    (a : string) (d : list (string * json)) :
  json_loads python a = Return (JObject d) ->
  parsed_reply python a
  = Return (default (JString a) (dict_lookup "return_message" d),
            default (JBool false) (dict_lookup "is_finished" d),
            default JNull (dict_lookup "data" d)).
Proof. intros H. unfold parsed_reply. by rewrite H. Qed.

(** A reply that decodes to anything but a [dict] leaves both handlers as
    an [AttributeError], which they turn into a 500. *)
Lemma parsed_reply_not_object (python : interpreter) (a : string) (v : json) :
  json_loads python a = Return v -> (forall d, v <> JObject d) ->
  parsed_reply python a
  = Raise (AttributeError
             ("'" +:+ type_name v +:+ "' object has no attribute 'get'")).
Proof.
  intros H Hv. unfold parsed_reply. rewrite H.
  destruct v; try reflexivity. by destruct (Hv pairs).
Qed.

Lemma parsed_reply_passed_through (python : interpreter)
    (a : string) (rm fin d : json) :
  parsed_reply python a = Return (rm, fin, d) ->
  passed_through python a fin d
  /\ (reply_invariant fin d <-> model_keeps_invariant python a).
Proof.
  unfold parsed_reply, passed_through, model_keeps_invariant. intros Hp.
  destruct (json_loads python a) as [v|e].
  - destruct v; try discriminate. injection Hp as <- <- <-. split; [eauto|done].
  - destruct e; try discriminate. injection Hp as <- <- <-. split; [done|].
    split; [done|]. intros _. split; [done|]. by intros [].
Qed.

(** Such a reply is a 500 for the caller of either handler. *)
Lemma not_object_reply_500 (python : interpreter) (a : string) (v : json) :
  json_loads python a = Return v -> (forall d, v <> JObject d) ->
  let detail :=
    "Error processing chat: " +:+
    "'" +:+ type_name v +:+ "' object has no attribute 'get'" in
  (forall uuid4, new_chat_outcome python uuid4 a
      = Raise (HTTPException 500 detail))
  /\ continue_chat_outcome python a = Raise (HTTPException 500 detail).
Proof.
  intros H Hv detail. unfold new_chat_outcome, continue_chat_outcome.
  rewrite (parsed_reply_not_object python _ _ H Hv). split; reflexivity.
Qed.

(** ** The session protocol *)

(** C1. After a successful [POST /new_chat] with message [m],
    [GET /chats/{chat_id}] with the returned [chat_id] gives exactly three
    turns, in order: the system turn holding the fixed meta-prompt, the
    user turn holding [m], and the assistant turn holding the text the
    client returned, as it was returned (whether or not it decoded). *)
Theorem new_chat_then_history (python : interpreter)
    (uuid4 : string) (openai_client : Client)
    (request : ChatRequest) (chats chats' : Chats) (resp : ChatResponse) :
  new_chat python uuid4 openai_client request chats = (chats', Return resp) ->
  exists a,
    openai_client (new_chat_request (message request)) = Content a
    /\ get_chat_history (chat_id resp) chats'
       = (chats',
          Return {| h_chat_id := chat_id resp;
                    h_messages :=
                      [ {| role := "system"; content := meta_prompt |};
                        {| role := "user"; content := message request |};
                        {| role := "assistant"; content := a |} ] |}).
Proof.
  intros H. destruct (new_chat_Return python _ _ _ _ _ _ H) as (a & E &
      -> & Ho).
  exists a. split; [exact E|].
  destruct (new_chat_outcome_Return python _ _ _ Ho) as (rm & fin & d & _ & ->).
  cbn [chat_id]. apply get_chat_history_known. apply lookup_insert_eq.
Qed.

Lemma new_chat_then_history_witness :
  let openai_client : Client := fun _ => Content "Which surf zones, bro?" in
  let after := fst (new_chat cpython "7d0c" openai_client {| message := "hi" |} ∅) in
  exists a,
    openai_client (new_chat_request "hi") = Content a
    /\ get_chat_history "7d0c" after
       = (after,
          Return {| h_chat_id := "7d0c";
                    h_messages :=
                      [ {| role := "system"; content := meta_prompt |};
                        {| role := "user"; content := "hi" |};
                        {| role := "assistant"; content := a |} ] |}).
Proof.
  intros openai_client after.
  apply (new_chat_then_history cpython "7d0c" openai_client {| message := "hi" |} ∅
           after
           {| chat_id := "7d0c";
              return_message := JString "Which surf zones, bro?";
              is_finished := JBool false; data := JNull |}).
  vm_compute. reflexivity.
Defined.

(** C2. A reply that does not parse as the expected JSON object should
    come back as a plain 200 with the raw text.  Here the model answers a
    continued session with the text [42]: [json.loads] accepts it, the
    value has no [get], and the caller receives a 500. *)
Theorem non_object_reply_surfaces_500 :
  let chats : Chats :=
    <["7d0c" := [system_turn; user_turn "hi";
                 assistant_turn "How many surf trips so far, dude?"]]> ∅ in
  let result :=
    continue_chat cpython "7d0c" (fun _ => Content "42") {| message := "a lot" |} chats in
  json_loads cpython "42" = Return (JInt 42)
  /\ snd result
     = Raise (HTTPException 500
                "Error processing chat: 'int' object has no attribute 'get'")
  /\ status_code_of (snd result) = 500%Z.
Proof. vm_compute. auto. Qed.

(** C3, as stated, fails: the model answers a new session with an object
    whose [is_finished] is false and whose [data] is a mapping, and the
    reply carries both. *)
Lemma reply_invariant_counterexample :
  let a :=
    dquote "{'return_message': 'Where to?', 'is_finished': false, 'data': {'destinations': 'Bali'}}" in
  exists resp,
    snd (new_chat cpython "7d0c" (fun _ => Content a) {| message := "hi" |} ∅)
    = Return resp
    /\ ~ reply_invariant (is_finished resp) (data resp).
Proof.
  eexists. split; [vm_compute; reflexivity|].
  cbn [is_finished data]. intros [H _]. specialize (H eq_refl). discriminate.
Qed.

(** C3, amended.  In every structured reply of [new_chat] and
    [continue_chat], [is_finished] is false and [data] is null when the
    model's text is not JSON; when it is a JSON object, [is_finished] and
    [data] are the object's own entries (false and null for a missing key),
    passed through as they are.  The handlers do not enforce the invariant:
    [data] is null whenever [is_finished] is false, and populated only when
    it is true, exactly when the model's own object says so. *)
Theorem structured_reply_passthrough (python : interpreter) :
  (forall uuid4 openai_client request chats chats' resp,
      new_chat python uuid4 openai_client request chats
          = (chats', Return resp) ->
      exists a,
        openai_client (new_chat_request (message request)) = Content a
        /\ passed_through python a (is_finished resp) (data resp)
        /\ (reply_invariant (is_finished resp) (data resp)
            <-> model_keeps_invariant python a))
  /\ (forall chat_id openai_client request chats chats' resp,
         continue_chat python chat_id openai_client request chats
         = (chats', Return resp) ->
         exists h a,
           chats !! chat_id = Some h
           /\ openai_client
                (continue_request (h ++ [user_turn (message request)]))
              = Content a
           /\ passed_through python a (c_is_finished resp) (c_data resp)
           /\ (reply_invariant (c_is_finished resp) (c_data resp)
               <-> model_keeps_invariant python a)).
Proof.
  split.
  - intros uuid4 cl request chats chats' resp H.
    destruct (new_chat_Return python _ _ _ _ _ _ H) as (a & E & _ & Ho).
    exists a. split; [exact E|].
    destruct (new_chat_outcome_Return python _ _ _ Ho)
        as (rm & fin & d & Hp & ->).
    cbn [is_finished data]. by apply parsed_reply_passed_through in Hp.
  - intros chat_id cl request chats chats' resp H.
    destruct (continue_chat_Return python _ _ _ _ _ _ H)
        as (h & a & Hh & E & _ & Ho).
    exists h, a. split; [exact Hh|]. split; [exact E|].
    destruct (continue_chat_outcome_Return python _ _ Ho)
        as (rm & fin & d & Hp & ->).
    cbn [c_is_finished c_data]. by apply parsed_reply_passed_through in Hp.
Qed.

Lemma structured_reply_passthrough_witness :
  let a := dquote "{'return_message': 'Where to?', 'is_finished': false}" in
  let openai_client : Client := fun _ => Content a in
  let chats : Chats := <["7d0c" := [system_turn; user_turn "hi"]]> ∅ in
  reply_invariant (JBool false) JNull
  /\ exists (h : list Turn) a',
       chats !! "7d0c" = Some h
       /\ openai_client (continue_request (h ++ [user_turn "Bali"])) = Content a'
       /\ passed_through cpython a' (JBool false) JNull.
Proof.
  intros a openai_client chats. split.
  - destruct (proj1 (structured_reply_passthrough cpython) "7d0c" openai_client
                {| message := "hi" |} ∅
                (fst (new_chat cpython "7d0c" openai_client {| message := "hi" |} ∅))
                {| chat_id := "7d0c"; return_message := JString "Where to?";
                   is_finished := JBool false; data := JNull |})
      as (a' & E & _ & Hiff); [vm_compute; reflexivity|].
    injection E as <-. apply Hiff. vm_compute. split; [reflexivity|].
    intros Hd. by destruct Hd.
  - destruct (proj2 (structured_reply_passthrough cpython) "7d0c" openai_client
                {| message := "Bali" |} chats
                (fst (continue_chat cpython "7d0c" openai_client
                        {| message := "Bali" |} chats))
                {| c_return_message := JString "Where to?";
                   c_is_finished := JBool false; c_data := JNull |})
      as (h & a' & Hh & E & Hp & _); [vm_compute; reflexivity|].
    exists h, a'. split; [exact Hh|]. split; [exact E | exact Hp].
Defined.

(** C4. A reply that is not valid JSON should come back as a 200 with the
    raw text, [is_finished] false and [data] null.  Here the model answers
    with 1001 opening brackets, more than a default interpreter can enter:
    the text is not JSON (an interpreter with room for it rejects it with
    [JSONDecodeError]), yet [json.loads] raises [RecursionError] before it
    finds that out, the [except json.JSONDecodeError] of the handlers does
    not catch it, and the caller of either endpoint receives a 500. *)
Theorem deep_reply_surfaces_500 :
  let a := copies 1001 "[" in
  let openai_client : Client := fun _ => Content a in
  let chats : Chats := <["7d0c" := [system_turn; user_turn "hi"]]> ∅ in
  let detail :=
    "Error processing chat: maximum recursion depth exceeded while decoding a JSON array from a unicode string" in
  json_loads (roomy 2000) a = Raise JSONDecodeError
  /\ snd (new_chat cpython "a1b2" openai_client {| message := "yo" |} chats)
     = Raise (HTTPException 500 detail)
  /\ snd (continue_chat cpython "7d0c" openai_client {| message := "Bali" |}
            chats)
     = Raise (HTTPException 500 detail).
Proof. vm_compute. auto. Qed.

(** X17. When [json.loads] rejects the model's reply text with
    [JSONDecodeError], the response of either endpoint has
    [return_message] equal to the raw text, [is_finished] false and [data]
    null. *)
Theorem non_json_reply_fallback (python : interpreter) (a : string) :
  json_loads python a = Raise JSONDecodeError ->
  (forall uuid4 openai_client request chats,
      openai_client (new_chat_request (message request)) = Content a ->
      snd (new_chat python uuid4 openai_client request chats)
      = Return {| chat_id := uuid4; return_message := JString a;
                  is_finished := JBool false; data := JNull |})
  /\ (forall chat_id openai_client request chats h,
         chats !! chat_id = Some h ->
         openai_client (continue_request (h ++ [user_turn (message request)]))
         = Content a ->
         snd (continue_chat python chat_id openai_client request chats)
         = Return {| c_return_message := JString a;
                     c_is_finished := JBool false; c_data := JNull |}).
Proof.
  intros Ha. split.
  - intros uuid4 cl request chats E.
    rewrite (new_chat_content python _ _ _ _ _ E).
    cbn [snd]. unfold new_chat_outcome.
    by rewrite (parsed_reply_not_json python _ Ha).
  - intros chat_id cl request chats h Hh E.
    rewrite (continue_chat_content python _ _ _ _ _ _ Hh E).
    cbn [snd]. unfold continue_chat_outcome.
    by rewrite (parsed_reply_not_json python _ Ha).
Qed.

Lemma non_json_reply_fallback_witness :
  let a := "Sure thing dude, where to?" in
  let openai_client : Client := fun _ => Content a in
  let chats : Chats := <["7d0c" := [system_turn; user_turn "hi"]]> ∅ in
  json_loads cpython a = Raise JSONDecodeError
  /\ snd (new_chat cpython "7d0c" openai_client {| message := "hi" |} ∅)
     = Return {| chat_id := "7d0c"; return_message := JString a;
                 is_finished := JBool false; data := JNull |}
  /\ snd (continue_chat cpython "7d0c" openai_client {| message := "Bali" |} chats)
     = Return {| c_return_message := JString a;
                 c_is_finished := JBool false; c_data := JNull |}.
Proof.
  intros a openai_client chats.
  assert (Ha : json_loads cpython a
      = Raise JSONDecodeError) by (vm_compute; reflexivity).
  split; [exact Ha|]. split.
  - apply (proj1 (non_json_reply_fallback cpython a Ha) "7d0c" openai_client
             {| message := "hi" |} ∅).
    reflexivity.
  - apply (proj2 (non_json_reply_fallback cpython a Ha) "7d0c" openai_client
             {| message := "Bali" |} chats [system_turn; user_turn "hi"]).
    + vm_compute. reflexivity.
    + reflexivity.
Defined.

(** C5, as stated, fails: the reply is a JSON object with [is_finished]
    true and a [data] object holding the four keys as texts (an
    interpreter with room for it decodes it so), and it has one more
    entry, nested 1001 arrays deep; on a default interpreter [json.loads]
    raises [RecursionError] and the caller of either endpoint receives a
    500 instead of the data. *)
Lemma finished_reply_echoes_data_counterexample :
  let a :=
    dquote "{'return_message': 'Epic', 'is_finished': true, 'data': {'destinations': 'Bali', 'travel_style': 'budget', 'surf_pref': 'barrels', 'extras': 'yoga'}, 'trace': "
    +:+ copies 1001 "[" +:+ copies 1001 "]" +:+ "}" in
  let openai_client : Client := fun _ => Content a in
  let chats : Chats := <["7d0c" := [system_turn; user_turn "hi"]]> ∅ in
  (exists o dat,
      json_loads (roomy 2000) a = Return (JObject o)
      /\ dict_lookup "is_finished" o = Some (JBool true)
      /\ dict_lookup "data" o = Some (JObject dat)
      /\ full_data dat)
  /\ status_code_of
       (snd (new_chat cpython "a1b2" openai_client {| message := "yo" |} chats))
     = 500%Z
  /\ status_code_of
       (snd (continue_chat cpython "7d0c" openai_client
               {| message := "Bali" |} chats))
     = 500%Z.
Proof.
  split.
  - eexists. eexists. split; [vm_compute; reflexivity|].
    split; [reflexivity|]. split; [reflexivity|].
    repeat split; eexists; reflexivity.
  - vm_compute. auto.
Qed.

(** C5, amended.  When [json.loads] decodes the model's reply (a JSON
    object within the interpreter's recursion and integer-size limits) to
    an object with [is_finished] true and a [data] object holding the four
    keys, the response of either endpoint carries that mapping as it was
    parsed: same keys, same values, same order. *)
Theorem finished_reply_echoes_data (python : interpreter) (a : string)
    (d dat : list (string * json)) :
  json_loads python a = Return (JObject d) ->
  dict_lookup "is_finished" d = Some (JBool true) ->
  dict_lookup "data" d = Some (JObject dat) ->
  full_data dat ->
  (forall uuid4 openai_client request chats,
      openai_client (new_chat_request (message request)) = Content a ->
      exists resp,
        snd (new_chat python uuid4 openai_client request chats) = Return resp
        /\ is_finished resp = JBool true /\ data resp = JObject dat)
  /\ (forall chat_id openai_client request chats h,
         chats !! chat_id = Some h ->
         openai_client (continue_request (h ++ [user_turn (message request)]))
         = Content a ->
         exists resp,
           snd (continue_chat python chat_id openai_client request chats)
               = Return resp
           /\ c_is_finished resp = JBool true /\ c_data resp = JObject dat).
Proof.
  intros Ha Hfin Hdata _. split.
  - intros uuid4 cl request chats E.
    rewrite (new_chat_content python _ _ _ _ _ E).
    cbn [snd]. unfold new_chat_outcome.
    rewrite (parsed_reply_object python _ _ Ha), Hfin, Hdata. eexists.
        split; done.
  - intros chat_id cl request chats h Hh E.
    rewrite (continue_chat_content python _ _ _ _ _ _ Hh E).
    cbn [snd]. unfold continue_chat_outcome.
    rewrite (parsed_reply_object python _ _ Ha), Hfin, Hdata. eexists.
        split; done.
Qed.

Lemma finished_reply_echoes_data_witness :
  let dat :=
    [ ("destinations", JString "San Diego, Sri Lanka");
      ("travel_style", JString "budget, solo");
      ("surf_pref", JString "barrels, reef");
      ("extras", JString "climbing") ] in
  let a :=
    dquote "{'return_message': 'Epic', 'is_finished': true, 'data': {'destinations': 'San Diego, Sri Lanka', 'travel_style': 'budget, solo', 'surf_pref': 'barrels, reef', 'extras': 'climbing'}}" in
  let openai_client : Client := fun _ => Content a in
  let chats : Chats := <["7d0c" := [system_turn; user_turn "hi"]]> ∅ in
  (exists resp,
      snd (new_chat cpython "7d0c" openai_client {| message := "hi" |} ∅) = Return resp
      /\ is_finished resp = JBool true /\ data resp = JObject dat)
  /\ (exists resp,
         snd (continue_chat cpython "7d0c" openai_client {| message := "climbing" |} chats)
         = Return resp
         /\ c_is_finished resp = JBool true /\ c_data resp = JObject dat).
Proof.
  intros dat a openai_client chats.
  pose proof (finished_reply_echoes_data cpython a
                [ ("return_message", JString "Epic");
                  ("is_finished", JBool true); ("data", JObject dat) ] dat)
    as T.
  destruct T as [Tn Tc].
  - vm_compute. reflexivity.
  - reflexivity.
  - reflexivity.
  - repeat split; eexists; reflexivity.
  - split.
    + apply (Tn "7d0c" openai_client {| message := "hi" |} ∅). reflexivity.
    + apply (Tc "7d0c" openai_client {| message := "climbing" |} chats
               [system_turn; user_turn "hi"]).
      * vm_compute. reflexivity.
      * reflexivity.
Defined.

(** C6. For a [chat_id] that is not in the session store,
    [POST /chats/{chat_id}/continue] raises the 404 "Chat not found" and
    nothing else: the handler is a total function, the store is left as it
    was and the client is never called (the result is the same for every
    client). *)
Theorem continue_unknown_chat_404 (python : interpreter)
    (chat_id : string) (openai_client : Client)
    (request : ChatRequest) (chats : Chats) :
  chats !! chat_id = None ->
  continue_chat python chat_id openai_client request chats
  = (chats, Raise (HTTPException 404 "Chat not found"))
  /\ status_code_of (snd (continue_chat python chat_id openai_client request
      chats))
     = 404%Z.
Proof.
  intros H. rewrite (continue_chat_unknown python _ _ _ _ H).
      split; reflexivity.
Qed.

Lemma continue_unknown_chat_404_witness :
  let chats : Chats := <["7d0c" := [system_turn; user_turn "hi"]]> ∅ in
  let openai_client : Client := fun _ => Content "Where to?" in
  continue_chat cpython "0000" openai_client {| message := "Bali" |} chats
  = (chats, Raise (HTTPException 404 "Chat not found"))
  /\ status_code_of
       (snd (continue_chat cpython "0000" openai_client {| message := "Bali" |} chats))
     = 404%Z.
Proof.
  intros chats openai_client.
  apply (continue_unknown_chat_404 cpython "0000" openai_client
           {| message := "Bali" |} chats).
  vm_compute. reflexivity.
Defined.

(** C7. A successful [POST /chats/{chat_id}/continue] with message [m] on
    a session with history [h] appends exactly two turns, the user turn
    [m] and then the assistant turn with the raw reply, and no system
    turn; the one request it sends to the model carries the whole history
    [h] followed by the user turn and no [response_format]; and the reply
    is worked out from the raw text as [new_chat] works it out. *)
Theorem continue_chat_protocol (python : interpreter)
    (chat_id : string) (openai_client : Client)
    (request : ChatRequest) (chats chats' : Chats)
    (resp : ContinueChatResponse) :
  continue_chat python chat_id openai_client request chats
      = (chats', Return resp) ->
  exists h a sent,
    chats !! chat_id = Some h
    /\ sent = {| model := "gpt-4";
                 messages := h ++ [ {| role := "user";
                                       content := message request |} ];
                 max_tokens := 500;
                 temperature := (7 # 10)%Q;
                 store := None;
                 response_format := None |}
    /\ openai_client sent = Content a
    /\ (forall other : Client,
           other sent = openai_client sent ->
           continue_chat python chat_id other request chats
           = continue_chat python chat_id openai_client request chats)
    /\ chats' !! chat_id
       = Some (h ++ [ {| role := "user"; content := message request |};
                      {| role := "assistant"; content := a |} ])
    /\ (forall id, id <> chat_id -> chats' !! id = chats !! id)
    /\ (forall uuid4 new_client new_request new_chats,
           new_client (new_chat_request (message new_request)) = Content a ->
           same_reply
             (snd (new_chat python uuid4 new_client new_request new_chats))
             (Return resp)).
Proof.
  intros H.
  destruct (continue_chat_Return python _ _ _ _ _ _ H) as (h & a & Hh & E &
      -> & Ho).
  exists h, a, (continue_request (h ++ [user_turn (message request)])).
  split; [exact Hh|]. split; [reflexivity|]. split; [exact E|].
  split; [|split; [|split]].
  - intros other Hother. rewrite E in Hother.
    rewrite (continue_chat_content python _ _ _ _ _ _ Hh E).
    apply (continue_chat_content python _ _ _ _ _ _ Hh Hother).
  - apply lookup_insert_eq.
  - intros id Hne. by apply lookup_insert_ne.
  - intros uuid4 cl' request' chats0 E'.
    rewrite (new_chat_content python _ _ _ _ _ E'). cbn [snd].
    destruct (continue_chat_outcome_Return python _ _ Ho)
        as (rm & fin & d & Hp & ->).
    unfold new_chat_outcome. rewrite Hp. cbn. auto.
Qed.

Lemma continue_chat_protocol_witness :
  let chats : Chats :=
    <["7d0c" := [system_turn; user_turn "hi"; assistant_turn "Where to?"]]> ∅ in
  let openai_client : Client := fun _ => Content "Nice one, bro" in
  let after :=
    fst (continue_chat cpython "7d0c" openai_client {| message := "Bali" |} chats) in
  exists h a,
    chats !! "7d0c" = Some h
    /\ after !! "7d0c" = Some (h ++ [user_turn "Bali"; assistant_turn a]).
Proof.
  intros chats openai_client after.
  destruct (continue_chat_protocol cpython "7d0c" openai_client {| message := "Bali" |}
              chats after
              {| c_return_message := JString "Nice one, bro";
                 c_is_finished := JBool false; c_data := JNull |})
    as (h & a & sent & Hh & _ & _ & _ & Hafter & _).
  - vm_compute. reflexivity.
  - exists h, a. split; [exact Hh | exact Hafter].
Defined.

(** C10. When the client raises inside [POST /chats/{chat_id}/continue],
    the caller gets the 500 and the session keeps the user turn that was
    appended before the call: the stored history is one turn longer than
    before the request, so the store is not what it was. *)
Theorem continue_chat_failure_not_atomic (python : interpreter)
    (chat_id : string)
    (openai_client : Client) (request : ChatRequest) (chats : Chats)
    (h : list Turn) (msg : string) :
  chats !! chat_id = Some h ->
  openai_client (continue_request (h ++ [user_turn (message request)]))
  = Failure msg ->
  let '(chats', o) := continue_chat python chat_id openai_client request chats
      in
  o = Raise (HTTPException 500 ("Error processing chat: " +:+ msg))
  /\ status_code_of o = 500%Z
  /\ chats' !! chat_id
     = Some (h ++ [ {| role := "user"; content := message request |} ])
  /\ chats' <> chats.
Proof.
  intros Hh E. rewrite (continue_chat_failure python _ _ _ _ _ _ Hh E).
  split; [reflexivity|]. split; [reflexivity|].
  split; [apply lookup_insert_eq|].
  intros Heq. apply (f_equal (fun c : Chats => c !! chat_id)) in Heq.
  rewrite lookup_insert_eq, Hh in Heq. injection Heq as Heq.
  apply (f_equal length) in Heq. rewrite length_app in Heq. simpl in Heq. lia.
Qed.

Lemma continue_chat_failure_not_atomic_witness :
  let chats : Chats := <["7d0c" := [system_turn; user_turn "hi"]]> ∅ in
  let openai_client : Client := fun _ => Failure "Connection error." in
  let '(chats', o) :=
    continue_chat cpython "7d0c" openai_client {| message := "Bali" |} chats in
  o = Raise (HTTPException 500 "Error processing chat: Connection error.")
  /\ status_code_of o = 500%Z
  /\ chats' !! "7d0c" = Some [system_turn; user_turn "hi"; user_turn "Bali"]
  /\ chats' <> chats.
Proof.
  intros chats openai_client.
  apply (continue_chat_failure_not_atomic cpython "7d0c" openai_client
           {| message := "Bali" |} chats [system_turn; user_turn "hi"]
           "Connection error.").
  - vm_compute. reflexivity.
  - reflexivity.
Defined.

(** ** The store over a run *)





(** [new_chat] assigns to the drawn key and touches no other. *)
Lemma new_chat_store (python : interpreter)
    (uuid4 : string) (openai_client : Client)
    (request : ChatRequest) (chats : Chats) :
  exists turns,
    fst (new_chat python uuid4 openai_client request chats)
        = <[uuid4 := turns]> chats.
Proof.
  destruct (openai_client (new_chat_request (message request)))
      as [a|msg] eqn:E.
  - rewrite (new_chat_content python _ _ _ _ _ E). eauto.
  - rewrite (new_chat_failure python _ _ _ _ _ E). eauto.
Qed.

(** [continue_chat] leaves the store alone or appends to one session. *)
Lemma continue_chat_store (python : interpreter)
    (chat_id : string) (openai_client : Client)
    (request : ChatRequest) (chats : Chats) :
  fst (continue_chat python chat_id openai_client request chats) = chats
  \/ exists h more,
       chats !! chat_id = Some h
       /\ fst (continue_chat python chat_id openai_client request chats)
          = <[chat_id := h ++ more]> chats.
Proof.
  destruct (chats !! chat_id) as [h|] eqn:Hh.
  - right. exists h.
    destruct (openai_client
                (continue_request (h ++ [user_turn (message request)])))
      as [a|msg] eqn:E.
    + rewrite (continue_chat_content python _ _ _ _ _ _ Hh E). eauto.
    + rewrite (continue_chat_failure python _ _ _ _ _ _ Hh E). eauto.
  - left. by rewrite (continue_chat_unknown python _ _ _ _ Hh).
Qed.

Lemma get_chat_history_store (chat_id : string) (chats : Chats) :
  fst (get_chat_history chat_id chats) = chats.
Proof.
  destruct (chats !! chat_id) as [h|] eqn:Hh.
  - by rewrite (get_chat_history_known _ _ _ Hh).
  - by rewrite (get_chat_history_unknown _ _ Hh).
Qed.

Lemma fst_serve (python : interpreter) (r : http_request) (chats : Chats) :
  fst (serve python r chats)
  = match r with
    | NewChat uuid4 cl body => fst (new_chat python uuid4 cl body chats)
    | ContinueChat chat_id cl body => fst (continue_chat python chat_id cl body
        chats)
    | GetChatHistory chat_id => fst (get_chat_history chat_id chats)
    | Health => chats
    end.
Proof.
  destruct r as [u cl body|id cl body|id|]; cbn [serve]; try reflexivity.
  - by destruct (new_chat python u cl body chats).
  - by destruct (continue_chat python id cl body chats).
  - by destruct (get_chat_history id chats).
Qed.



Lemma draws_cons (r : http_request) (rs : list http_request) :
  draws (r :: rs) = draws [r] ++ draws rs.
Proof. destruct r; reflexivity. Qed.


Lemma fst_run_cons (python : interpreter)
    (r : http_request) (rs : list http_request) (chats : Chats) :
  fst (run python (r :: rs) chats)
      = fst (run python rs (fst (serve python r chats))).
Proof.
  cbn [run]. destruct (serve python r chats) as [c1 resp]. cbn [fst].
  by destruct (run python rs c1).
Qed.







(** ** Session identifiers *)

(** The [chat_id] a successful [new_chat] returns is the id it drew. *)
Lemma new_chat_returns_draw (python : interpreter)
    (uuid4 : string) (openai_client : Client)
    (request : ChatRequest) (chats chats' : Chats) (resp : ChatResponse) :
  new_chat python uuid4 openai_client request chats = (chats', Return resp) ->
  chat_id resp = uuid4 /\ is_Some (chats' !! uuid4).
Proof.
  intros H. destruct (new_chat_Return python _ _ _ _ _ _ H) as (a & _ &
      -> & Ho).
  destruct (new_chat_outcome_Return python _ _ _ Ho) as (rm & fin & d & _ & ->).
  split; [reflexivity|]. rewrite lookup_insert_eq. eauto.
Qed.

Lemma snd_run_cons (python : interpreter)
    (r : http_request) (rs : list http_request) (chats : Chats) :
  snd (run python (r :: rs) chats)
  = snd (serve python r chats)
      :: snd (run python rs (fst (serve python r chats))).
Proof.
  cbn [run]. destruct (serve python r chats) as [c1 resp]. cbn [fst snd].
  by destruct (run python rs c1).
Qed.

(** No request removes a key. *)
Lemma serve_keeps_keys (python : interpreter)
    (r : http_request) (chats : Chats) (id : string) :
  is_Some (chats !! id) -> is_Some (fst (serve python r chats) !! id).
Proof.
  intros Hid. rewrite fst_serve. destruct r as [u cl body|id' cl body|id'|].
  - destruct (new_chat_store python u cl body chats) as [turns ->].
    rewrite lookup_insert_is_Some. destruct (decide (u = id)); auto.
  - destruct (continue_chat_store python id' cl body chats)
      as [->|(h & more & Hh & ->)]; [done|].
    rewrite lookup_insert_is_Some. destruct (decide (id' = id)); auto.
  - by rewrite get_chat_history_store.
  - done.
Qed.

Lemma run_keeps_keys (python : interpreter)
    (rs : list http_request) (chats : Chats) (id : string) :
  is_Some (chats !! id) -> is_Some (fst (run python rs chats) !! id).
Proof.
  revert chats. induction rs as [|r rs IH]; intros chats Hid; [done|].
  rewrite fst_run_cons. by apply IH, serve_keeps_keys.
Qed.

(** The ids handed to callers are among the ids drawn, in the same order. *)
Lemma returned_ids_sublist (python : interpreter)
    (rs : list http_request) (chats : Chats) :
  returned_ids (snd (run python rs chats)) `sublist_of` draws rs.
Proof.
  revert chats. induction rs as [|r rs IH]; intros chats; [done|].
  rewrite snd_run_cons. specialize (IH (fst (serve python r chats))).
  destruct r as [u cl body|id cl body|id|]; cbn [serve draws].
  - destruct (new_chat python u cl body chats) as [c1 [resp|e]] eqn:E;
      cbn [snd fst returned_ids].
    + destruct (new_chat_returns_draw python _ _ _ _ _ _ E) as [-> _].
      cbn [serve] in IH. rewrite E in IH. by apply sublist_skip.
    + cbn [serve] in IH. rewrite E in IH. by apply sublist_cons.
  - cbn [serve] in IH.
    by destruct (continue_chat python id cl body chats) as [c1 o].
  - cbn [serve] in IH. by destruct (get_chat_history id chats) as [c1 o].
  - exact IH.
Qed.

Lemma returned_ids_stored (python : interpreter)
    (rs : list http_request) (chats : Chats) (id : string) :
  id ∈ returned_ids (snd (run python rs chats))
      -> is_Some (fst (run python rs chats) !! id).
Proof.
  revert chats. induction rs as [|r rs IH]; intros chats.
  - cbn. intros H. by apply elem_of_nil in H.
  - rewrite snd_run_cons, fst_run_cons.
    destruct r as [u cl body|id' cl body|id'|]; cbn [serve].
    + destruct (new_chat python u cl body chats) as [c1 [resp|e]] eqn:E;
        cbn [snd fst returned_ids]; [|apply IH].
      intros [->|Hin]%elem_of_cons; [|by apply IH].
      destruct (new_chat_returns_draw python _ _ _ _ _ _ E) as [-> Hs].
      by apply run_keeps_keys.
    + destruct (continue_chat python id' cl body chats) as [c1 o]. apply IH.
    + destruct (get_chat_history id' chats) as [c1 o]. apply IH.
    + apply IH.
Qed.

(** C9, as stated, fails: the [chat_id] is whatever [uuid4] draws, and no
    handler compares it with the ids in use, so two successful
    [POST /new_chat] calls for which [uuid4] draws the same id return the
    same [chat_id]. *)
Lemma new_chat_ids_unique_counterexample :
  let cl : Client := fun _ => Content "Where to?" in
  let rs :=
    [ NewChat "7d0c" cl {| message := "hi" |};
      NewChat "7d0c" cl {| message := "yo" |} ] in
  returned_ids (snd (run cpython rs ∅)) = ["7d0c"; "7d0c"]
  /\ ~ NoDup (returned_ids (snd (run cpython rs ∅))).
Proof.
  intros cl rs.
  assert (H : returned_ids (snd (run cpython rs ∅)) = ["7d0c"; "7d0c"])
    by (vm_compute; reflexivity).
  split; [exact H|]. rewrite H. intros Hnd.
  apply NoDup_cons in Hnd as [Hnot _]. apply Hnot, list_elem_of_here.
Qed.

(** C9, amended.  The [chat_id]s returned by the successful
    [POST /new_chat] calls of a process lifetime are the ids [uuid4] drew
    for those calls, in the order of the calls (the ids drawn for failed
    calls are returned to nobody); so they are pairwise distinct whenever
    the ids [uuid4] draws are, the code making no check of its own; and
    each of them names a session of the store at the end of the run. *)
Theorem new_chat_ids_unique (python : interpreter)
    (rs : list http_request) (chats : Chats) :
  returned_ids (snd (run python rs chats)) `sublist_of` draws rs
  /\ (NoDup (draws rs) -> NoDup (returned_ids (snd (run python rs chats))))
  /\ forall id, id ∈ returned_ids (snd (run python rs chats)) ->
       is_Some (fst (run python rs chats) !! id).
Proof.
  split; [apply returned_ids_sublist|]. split.
  - intros Hnd.
    eapply sublist_NoDup; [exact Hnd | apply returned_ids_sublist].
  - apply returned_ids_stored.
Qed.

Lemma new_chat_ids_unique_witness :
  let cl : Client := fun _ => Content "Where to?" in
  let rs :=
    [ NewChat "7d0c" cl {| message := "hi" |};
      NewChat "a1b2" (fun _ => Failure "Connection error.") {| message := "yo" |};
      ContinueChat "7d0c" cl {| message := "Bali" |};
      NewChat "c3d4" cl {| message := "hey" |} ] in
  NoDup (returned_ids (snd (run cpython rs ∅)))
  /\ returned_ids (snd (run cpython rs ∅)) = ["7d0c"; "c3d4"].
Proof.
  intros cl rs. split; [|vm_compute; reflexivity].
  apply (proj1 (proj2 (new_chat_ids_unique cpython rs ∅))).
  apply (bool_decide_unpack _). vm_compute. exact I.
Defined.

(** ** More on the handlers of [main.py] *)

(** The two stores [new_chat] can leave. *)
Lemma new_chat_store_cases (python : interpreter)
    (uuid4 : string) (openai_client : Client)
    (request : ChatRequest) (chats : Chats) :
  let m := message request in
  fst (new_chat python uuid4 openai_client request chats)
  = <[uuid4 := [system_turn; user_turn m]]> chats
  \/ exists a,
       fst (new_chat python uuid4 openai_client request chats)
       = <[uuid4 := [system_turn; user_turn m; assistant_turn a]]> chats.
Proof.
  intros m.
  destruct (openai_client (new_chat_request m)) as [a|msg] eqn:E.
  - right. exists a. by rewrite (new_chat_content python _ _ _ _ _ E).
  - left. by rewrite (new_chat_failure python _ _ _ _ _ E).
Qed.

(** The three stores [continue_chat] can leave. *)
Lemma continue_chat_store_cases (python : interpreter)
    (chat_id : string) (openai_client : Client)
    (request : ChatRequest) (chats : Chats) :
  let m := message request in
  match chats !! chat_id with
  | None => fst (continue_chat python chat_id openai_client request chats)
      = chats
  | Some h =>
      fst (continue_chat python chat_id openai_client request chats)
      = <[chat_id := h ++ [user_turn m]]> chats
      \/ exists a,
           fst (continue_chat python chat_id openai_client request chats)
           = <[chat_id := h ++ [user_turn m; assistant_turn a]]> chats
  end.
Proof.
  intros m. destruct (chats !! chat_id) as [h|] eqn:Hh.
  - destruct (openai_client (continue_request (h ++ [user_turn m])))
      as [a|msg] eqn:E.
    + right. exists a.
      by rewrite (continue_chat_content python _ _ _ _ _ _ Hh E).
    + left. by rewrite (continue_chat_failure python _ _ _ _ _ _ Hh E).
  - by rewrite (continue_chat_unknown python _ _ _ _ Hh).
Qed.

(** X1. When the client raises inside [POST /new_chat], the caller gets
    the 500 and never learns the id, yet the session stays in the store
    with its system and user turns; the other sessions are untouched. *)
Theorem new_chat_failure_leaves_session (python : interpreter) (uuid4 : string)
    (openai_client : Client) (request : ChatRequest) (chats : Chats)
    (msg : string) :
  openai_client (new_chat_request (message request)) = Failure msg ->
  let '(chats', o) := new_chat python uuid4 openai_client request chats in
  o = Raise (HTTPException 500 ("Error processing chat: " +:+ msg))
  /\ chats' !! uuid4
     = Some [ {| role := "system"; content := meta_prompt |};
              {| role := "user"; content := message request |} ]
  /\ (forall id, id <> uuid4 -> chats' !! id = chats !! id)
  /\ (chats !! uuid4 = None -> size chats' = S (size chats)).
Proof.
  intros E. rewrite (new_chat_failure python _ _ _ _ _ E).
  split; [reflexivity|]. split; [apply lookup_insert_eq|]. split.
  - intros id Hne. by apply lookup_insert_ne.
  - intros Hnew. by apply map_size_insert_None.
Qed.

Lemma new_chat_failure_leaves_session_witness :
  let openai_client : Client := fun _ => Failure "Connection error." in
  let '(chats', o) := new_chat cpython "7d0c" openai_client {| message := "hi" |} ∅ in
  o = Raise (HTTPException 500 "Error processing chat: Connection error.")
  /\ chats' !! "7d0c" = Some [system_turn; user_turn "hi"]
  /\ (forall id, id <> "7d0c" -> chats' !! id = (∅ : Chats) !! id)
  /\ ((∅ : Chats) !! "7d0c" = None -> size chats' = S (size (∅ : Chats))).
Proof.
  intros openai_client.
  apply (new_chat_failure_leaves_session cpython "7d0c" openai_client
           {| message := "hi" |} ∅ "Connection error.").
  reflexivity.
Defined.

(** X2. A reply that decodes to something other than an object is a 500
    for the caller of either handler, and by then the assistant turn
    holding that reply is already stored. *)
Theorem non_object_reply_is_stored (python : interpreter)
    (a : string) (v : json) :
  json_loads python a = Return v ->
  (forall o, v <> JObject o) ->
  (forall uuid4 openai_client request chats,
      openai_client (new_chat_request (message request)) = Content a ->
      let '(chats', o) := new_chat python uuid4 openai_client request chats in
      status_code_of o = 500%Z
      /\ chats' !! uuid4
         = Some [ {| role := "system"; content := meta_prompt |};
                  {| role := "user"; content := message request |};
                  {| role := "assistant"; content := a |} ])
  /\ (forall chat_id openai_client request chats h,
         chats !! chat_id = Some h ->
         openai_client (continue_request (h ++ [user_turn (message request)]))
         = Content a ->
         let '(chats', o) :=
           continue_chat python chat_id openai_client request chats in
         status_code_of o = 500%Z
         /\ chats' !! chat_id
            = Some (h ++ [ {| role := "user"; content := message request |};
                           {| role := "assistant"; content := a |} ])).
Proof.
  intros Ha Hv. destruct (not_object_reply_500 python a v Ha Hv) as [Hn Hc].
  split.
  - intros uuid4 cl request chats E.
    rewrite (new_chat_content python _ _ _ _ _ E).
    rewrite Hn. split; [reflexivity | apply lookup_insert_eq].
  - intros chat_id cl request chats h Hh E.
    rewrite (continue_chat_content python _ _ _ _ _ _ Hh E).
    rewrite Hc. split; [reflexivity | apply lookup_insert_eq].
Qed.

Lemma non_object_reply_is_stored_witness :
  let openai_client : Client := fun _ => Content "[1, 2]" in
  let chats : Chats := <["7d0c" := [system_turn; user_turn "hi"]]> ∅ in
  (let '(chats', o) := new_chat cpython "a1b2" openai_client {| message := "yo" |} chats in
   status_code_of o = 500%Z
   /\ chats' !! "a1b2"
      = Some [system_turn; user_turn "yo"; assistant_turn "[1, 2]"])
  /\ (let '(chats', o) :=
        continue_chat cpython "7d0c" openai_client {| message := "Bali" |} chats in
      status_code_of o = 500%Z
      /\ chats' !! "7d0c"
         = Some ([system_turn; user_turn "hi"]
                 ++ [user_turn "Bali"; assistant_turn "[1, 2]"])).
Proof.
  intros openai_client chats.
  destruct (non_object_reply_is_stored cpython "[1, 2]" (JArray [JInt 1; JInt 2]))
    as [Hn Hc]; [vm_compute; reflexivity | discriminate |].
  split.
  - apply (Hn "a1b2" openai_client {| message := "yo" |} chats). reflexivity.
  - apply (Hc "7d0c" openai_client {| message := "Bali" |} chats
             [system_turn; user_turn "hi"]).
    + vm_compute. reflexivity.
    + reflexivity.
Defined.

(** X3. Each handler asks the model one thing.  [new_chat] depends on the
    client only through its answer to the request made of the meta-prompt
    and the message (model [gpt-4.1], JSON-object format); [continue_chat]
    on a known session only through its answer to the request carrying
    the history and the new message, and on an unknown session not at
    all. *)
Theorem handlers_single_request (python : interpreter) :
  (forall uuid4 request chats (client client' : Client),
      client (new_chat_request (message request))
      = client' (new_chat_request (message request)) ->
      new_chat python uuid4 client request chats
      = new_chat python uuid4 client' request chats)
  /\ (forall chat_id request chats (client client' : Client),
         (forall h, chats !! chat_id = Some h ->
            client (continue_request (h ++ [user_turn (message request)]))
            = client' (continue_request (h ++ [user_turn (message request)])))
                ->
         continue_chat python chat_id client request chats
         = continue_chat python chat_id client' request chats).
Proof.
  split.
  - intros uuid4 request chats cl cl' H.
    destruct (cl' (new_chat_request (message request))) as [a|msg] eqn:E.
    + by rewrite (new_chat_content python _ _ _ _ _ H),
      (new_chat_content python _ _ _ _ _ E).
    + by rewrite (new_chat_failure python _ _ _ _ _ H),
      (new_chat_failure python _ _ _ _ _ E).
  - intros chat_id request chats cl cl' H.
    destruct (chats !! chat_id) as [h|] eqn:Hh.
    + specialize (H h eq_refl).
      destruct (cl' (continue_request (h ++ [user_turn (message request)])))
        as [a|msg] eqn:E.
      * by rewrite (continue_chat_content python _ _ _ _ _ _ Hh H),
          (continue_chat_content python _ _ _ _ _ _ Hh E).
      * by rewrite (continue_chat_failure python _ _ _ _ _ _ Hh H),
          (continue_chat_failure python _ _ _ _ _ _ Hh E).
    + by rewrite !(continue_chat_unknown python _ _ _ _ Hh).
Qed.

Lemma handlers_single_request_witness :
  let client : Client := fun _ => Content "Where to?" in
  let client' : Client :=
    fun req => if bool_decide (response_format req = None)
               then Failure "no format" else Content "Where to?" in
  new_chat cpython "7d0c" client {| message := "hi" |} ∅
  = new_chat cpython "7d0c" client' {| message := "hi" |} ∅
  /\ continue_chat cpython "0000" client {| message := "hi" |} ∅
     = continue_chat cpython "0000" client' {| message := "hi" |} ∅.
Proof.
  intros client client'. split.
  - apply (proj1 (handlers_single_request cpython) "7d0c" {| message := "hi" |} ∅
             client client').
    reflexivity.
  - apply (proj2 (handlers_single_request cpython) "0000" {| message := "hi" |} ∅
             client client').
    intros h Hh. rewrite lookup_empty in Hh. discriminate.
Defined.

(** X4. Every reply that [json.loads] decodes to an object gives a 200 in
    both handlers, whose three fields are the object's entries under
    [return_message], [is_finished] and [data], whatever their types; a
    missing key gives the raw text, false and null respectively. *)
Theorem object_reply_fields (python : interpreter)
    (a : string) (o : list (string * json)) :
  json_loads python a = Return (JObject o) ->
  let rm := default (JString a) (dict_lookup "return_message" o) in
  let fin := default (JBool false) (dict_lookup "is_finished" o) in
  let d := default JNull (dict_lookup "data" o) in
  (forall uuid4 openai_client request chats,
      openai_client (new_chat_request (message request)) = Content a ->
      snd (new_chat python uuid4 openai_client request chats)
      = Return {| chat_id := uuid4; return_message := rm;
                  is_finished := fin; data := d |})
  /\ (forall chat_id openai_client request chats h,
         chats !! chat_id = Some h ->
         openai_client (continue_request (h ++ [user_turn (message request)]))
         = Content a ->
         snd (continue_chat python chat_id openai_client request chats)
         = Return {| c_return_message := rm; c_is_finished := fin;
                     c_data := d |}).
Proof.
  intros Ha rm fin d. split.
  - intros uuid4 cl request chats E.
    rewrite (new_chat_content python _ _ _ _ _ E).
    cbn [snd]. unfold new_chat_outcome.
    by rewrite (parsed_reply_object python _ _ Ha).
  - intros chat_id cl request chats h Hh E.
    rewrite (continue_chat_content python _ _ _ _ _ _ Hh E).
    cbn [snd]. unfold continue_chat_outcome.
    by rewrite (parsed_reply_object python _ _ Ha).
Qed.

Lemma object_reply_fields_witness :
  let a := dquote "{'is_finished': 1, 'note': 'no message key'}" in
  let openai_client : Client := fun _ => Content a in
  let chats : Chats := <["7d0c" := [system_turn; user_turn "hi"]]> ∅ in
  snd (new_chat cpython "a1b2" openai_client {| message := "yo" |} chats)
  = Return {| chat_id := "a1b2"; return_message := JString a;
              is_finished := JInt 1; data := JNull |}
  /\ snd (continue_chat cpython "7d0c" openai_client {| message := "Bali" |} chats)
     = Return {| c_return_message := JString a; c_is_finished := JInt 1;
                 c_data := JNull |}.
Proof.
  intros a openai_client chats.
  destruct (object_reply_fields cpython a
              [("is_finished", JInt 1); ("note", JString "no message key")])
    as [Hn Hc]; [vm_compute; reflexivity|].
  split.
  - apply (Hn "a1b2" openai_client {| message := "yo" |} chats). reflexivity.
  - apply (Hc "7d0c" openai_client {| message := "Bali" |} chats
             [system_turn; user_turn "hi"]).
    + vm_compute. reflexivity.
    + reflexivity.
Defined.

Lemma answerable_outcome (python : interpreter) (a : string) :
  (answerable python a ->
     exists rm fin d, parsed_reply python a = Return (rm, fin, d))
  /\ (~ answerable python a -> exists e, parsed_reply python a = Raise e).
Proof.
  unfold answerable, parsed_reply. split.
  - intros [->|[o ->]]; eauto.
  - intros Hn. destruct (json_loads python a) as [v|e].
    + destruct v; eauto. destruct Hn. right. eauto.
    + destruct e; eauto. destruct Hn. by left.
Qed.

Lemma parsed_reply_answerable (python : interpreter) (a : string)
    (reply : json * json * json) :
  parsed_reply python a = Return reply -> answerable python a.
Proof.
  unfold answerable, parsed_reply.
  destruct (json_loads python a) as [v|e]; [destruct v | destruct e];
    intros; try discriminate; eauto.
Qed.

(** X5. The status of [POST /new_chat] is 200 or 500, never anything
    else; it is 200 exactly when the client returned a text that
    [json.loads] rejects with [JSONDecodeError] or decodes to an object
    (so it is 500 when the client raises, when [json.loads] raises
    anything else, and when the text decodes to another value). *)
Theorem new_chat_status (python : interpreter)
    (uuid4 : string) (openai_client : Client)
    (request : ChatRequest) (chats : Chats) :
  let status :=
    status_code_of (snd (new_chat python uuid4 openai_client request chats)) in
  (status = 200%Z \/ status = 500%Z)
  /\ (status = 200%Z
      <-> exists a,
            openai_client (new_chat_request (message request)) = Content a
            /\ answerable python a).
Proof.
  cbn zeta.
  destruct (openai_client (new_chat_request (message request)))
    as [a|msg] eqn:E.
  - rewrite (new_chat_content python _ _ _ _ _ E). cbn [snd].
    unfold new_chat_outcome. destruct (answerable_outcome python a) as [Hy Hn].
    destruct (parsed_reply python a) as [[[rm fin] d]|e] eqn:Hp; cbn.
    + split; [by left|]. split; [|done]. intros _. exists a. split; [done|].
      by eapply parsed_reply_answerable.
    + split; [by right|]. split; [done|].
      intros (a' & [= <-] & Hans). destruct (Hy Hans) as (? & ? & ? & ?).
      discriminate.
  - rewrite (new_chat_failure python _ _ _ _ _ E). cbn. split; [by right|].
    split; [done|]. by intros (a & ? & _).
Qed.

(** X6. The status of [POST /chats/{chat_id}/continue] is 200, 404 or
    500; it is 404 exactly when the id is not in the store, and 200
    exactly when the id is known and the client returned a text that
    [json.loads] rejects with [JSONDecodeError] or decodes to an object. *)
Theorem continue_chat_status (python : interpreter)
    (chat_id : string) (openai_client : Client)
    (request : ChatRequest) (chats : Chats) :
  let status :=
    status_code_of (snd (continue_chat python chat_id openai_client request
        chats)) in
  (status = 200%Z \/ status = 404%Z \/ status = 500%Z)
  /\ (status = 404%Z <-> chats !! chat_id = None)
  /\ (status = 200%Z
      <-> exists h a,
            chats !! chat_id = Some h
            /\ openai_client
                 (continue_request (h ++ [user_turn (message request)]))
               = Content a
            /\ answerable python a).
Proof.
  cbn zeta. destruct (chats !! chat_id) as [h|] eqn:Hh.
  - destruct (openai_client
                (continue_request (h ++ [user_turn (message request)])))
      as [a|msg] eqn:E.
    + rewrite (continue_chat_content python _ _ _ _ _ _ Hh E). cbn [snd].
      unfold continue_chat_outcome. destruct (answerable_outcome python a)
          as [Hy Hn].
      destruct (parsed_reply python a) as [[[rm fin] d]|e] eqn:Hp; cbn.
      * split; [by left|]. split; [done|]. split; [|done].
        intros _. exists h, a. split; [done|]. split; [done|].
        by eapply parsed_reply_answerable.
      * split; [by right; right|]. split; [done|]. split; [done|].
        intros (h' & a' & [= <-] & Ea & Hans). rewrite E in Ea.
        injection Ea as <-. destruct (Hy Hans) as (? & ? & ? & ?).
        discriminate.
    + rewrite (continue_chat_failure python _ _ _ _ _ _ Hh E). cbn.
      split; [by right; right|]. split; [done|]. split; [done|].
      intros (h' & a & [= <-] & Ea & _). congruence.
  - rewrite (continue_chat_unknown python _ _ _ _ Hh). cbn.
    split; [by right; left|]. split; [done|]. split; [done|].
    by intros (h & a & ? & _).
Qed.

(** X7. [GET /chats/{chat_id}] never writes to the store; it returns the
    stored turns as they are when the id is known, and the 404 otherwise. *)
Theorem get_chat_history_reads (chat_id : string) (chats : Chats) :
  get_chat_history chat_id chats
  = (chats,
     match chats !! chat_id with
     | Some h => Return {| h_chat_id := chat_id; h_messages := h |}
     | None => Raise (HTTPException 404 "Chat not found")
     end).
Proof.
  destruct (chats !! chat_id) as [h|] eqn:Hh.
  - by apply get_chat_history_known.
  - by apply get_chat_history_unknown.
Qed.

(** X8. A request writes to one session at most: every session other
    than the one it names (by the drawn id or by [chat_id]) is left as it
    was, whatever the outcome. *)
Theorem serve_other_sessions (python : interpreter)
    (r : http_request) (chats : Chats) (id : string) :
  target r <> Some id -> fst (serve python r chats) !! id = chats !! id.
Proof.
  intros Hne. rewrite fst_serve.
  destruct r as [u cl body|id' cl body|id'|]; cbn [target] in Hne.
  - destruct (new_chat_store python u cl body chats) as [turns ->].
    apply lookup_insert_ne. congruence.
  - destruct (continue_chat_store python id' cl body chats)
      as [->|(h & more & Hh & ->)]; [done|].
    apply lookup_insert_ne. congruence.
  - by rewrite get_chat_history_store.
  - done.
Qed.

Lemma serve_other_sessions_witness :
  let chats : Chats :=
    <["7d0c" := [system_turn; user_turn "hi"]]>
      (<["a1b2" := [system_turn; user_turn "yo"]]> ∅) in
  let r := ContinueChat "7d0c" (fun _ => Content "42") {| message := "Bali" |} in
  fst (serve cpython r chats) !! "a1b2" = chats !! "a1b2".
Proof.
  intros chats r. apply (serve_other_sessions cpython r chats "a1b2"). discriminate.
Defined.

(** X9. What [new_chat] stores under the drawn id and what it returns do
    not depend on the store it runs in: an id that is already a key gets
    a new session in place of the old one, not appended to it. *)
Theorem new_chat_ignores_store (python : interpreter)
    (uuid4 : string) (openai_client : Client)
    (request : ChatRequest) (chats chats0 : Chats) :
  snd (new_chat python uuid4 openai_client request chats)
  = snd (new_chat python uuid4 openai_client request chats0)
  /\ fst (new_chat python uuid4 openai_client request chats) !! uuid4
     = fst (new_chat python uuid4 openai_client request chats0) !! uuid4
  /\ exists turns,
       fst (new_chat python uuid4 openai_client request chats) !! uuid4
           = Some turns
       /\ (length turns = 2 \/ length turns = 3).
Proof.
  destruct (openai_client (new_chat_request (message request)))
    as [a|msg] eqn:E.
  - rewrite !(new_chat_content python _ _ _ _ _ E). cbn [fst snd].
    rewrite !lookup_insert_eq. eauto 6.
  - rewrite !(new_chat_failure python _ _ _ _ _ E). cbn [fst snd].
    rewrite !lookup_insert_eq. eauto 6.
Qed.

(** ** More on runs *)

Lemma well_formed_new (m : string) (rest : list Turn) :
  Forall dialogue_turn rest ->
  well_formed_session (system_turn :: user_turn m :: rest).
Proof. intros H. by exists m, rest. Qed.

Lemma well_formed_app (h more : list Turn) :
  well_formed_session h -> Forall dialogue_turn more ->
  well_formed_session (h ++ more).
Proof.
  intros (m & rest & -> & Hrest) Hmore. exists m, (rest ++ more).
  split; [reflexivity|]. by apply Forall_app.
Qed.

Lemma dialogue_user (m : string) : dialogue_turn (user_turn m).
Proof. by left. Qed.

Lemma dialogue_assistant (a : string) : dialogue_turn (assistant_turn a).
Proof. by right. Qed.

(** Closes [Forall dialogue_turn] on an explicit list of turns. *)
Ltac dialogue_turns :=
  repeat (apply Forall_cons_2;
          [first [apply dialogue_user | apply dialogue_assistant]|]);
  apply Forall_nil_2.

Lemma serve_well_formed (python : interpreter)
    (r : http_request) (chats : Chats) :
  (forall id h, chats !! id = Some h -> well_formed_session h) ->
  forall id h, fst (serve python r chats) !! id = Some h
      -> well_formed_session h.
Proof.
  intros Hwf id h. rewrite fst_serve.
  destruct r as [u cl body|id' cl body|id'|].
  - destruct (new_chat_store_cases python u cl body chats) as [->|[a ->]];
      (destruct (decide (u = id)) as [->|Hne];
       [rewrite lookup_insert_eq; intros [= <-]; apply well_formed_new
       |rewrite lookup_insert_ne by done; apply Hwf]).
    + dialogue_turns.
    + dialogue_turns.
  - pose proof (continue_chat_store_cases python id' cl body chats) as Hc.
    cbn zeta in Hc. destruct (chats !! id') as [h0|] eqn:Hh.
    + destruct Hc as [->|[a ->]];
        (destruct (decide (id' = id)) as [->|Hne];
         [rewrite lookup_insert_eq; intros [= <-];
          apply well_formed_app; [by eapply Hwf|]
         |rewrite lookup_insert_ne by done; apply Hwf]).
      * dialogue_turns.
      * dialogue_turns.
    + rewrite Hc. apply Hwf.
  - rewrite get_chat_history_store. apply Hwf.
  - apply Hwf.
Qed.

(** X10. Every session a run leaves in the store begins with the system
    turn holding the meta-prompt, then a user turn, and holds only user
    and assistant turns after that: the meta-prompt is in each session
    once, at its head, whatever the requests and their outcomes were. *)
Theorem run_well_formed (python : interpreter)
    (rs : list http_request) (chats : Chats) :
  (forall id h, chats !! id = Some h -> well_formed_session h) ->
  forall id h, fst (run python rs chats) !! id = Some h
      -> well_formed_session h.
Proof.
  revert chats. induction rs as [|r rs IH]; intros chats Hwf; [exact Hwf|].
  rewrite fst_run_cons. apply IH. by apply serve_well_formed.
Qed.

Lemma run_well_formed_witness :
  let cl : Client := fun _ => Content "Where to?" in
  let rs :=
    [ NewChat "7d0c" cl {| message := "hi" |};
      ContinueChat "7d0c" (fun _ => Failure "Connection error.")
        {| message := "Bali" |};
      ContinueChat "7d0c" cl {| message := "Bali" |} ] in
  well_formed_session
    [ system_turn; user_turn "hi"; assistant_turn "Where to?";
      user_turn "Bali"; user_turn "Bali"; assistant_turn "Where to?" ].
Proof.
  intros cl rs. apply (run_well_formed cpython rs ∅) with (id := "7d0c").
  - intros id h Hh. rewrite lookup_empty in Hh. discriminate.
  - vm_compute. reflexivity.
Defined.

(** X11. The id a successful [new_chat] returns is accepted by
    [continue_chat], whatever happened in between: the status is never
    404, and when nothing happened in between the model is sent the
    meta-prompt, the first message, the first raw reply and the new
    message, in that order. *)
Theorem new_chat_then_continue (python : interpreter)
    (uuid4 : string) (client client' : Client)
    (request request' : ChatRequest) (chats chats' : Chats)
    (resp : ChatResponse) :
  new_chat python uuid4 client request chats = (chats', Return resp) ->
  (forall rs,
      status_code_of
        (snd (continue_chat python (chat_id resp) client' request'
                (fst (run python rs chats'))))
      <> 404%Z)
  /\ exists a,
       client (new_chat_request (message request)) = Content a
       /\ forall a',
            client'
              (continue_request
                 [ {| role := "system"; content := meta_prompt |};
                   {| role := "user"; content := message request |};
                   {| role := "assistant"; content := a |};
                   {| role := "user"; content := message request' |} ])
            = Content a' ->
            fst (continue_chat python (chat_id resp) client' request' chats')
              !! chat_id resp
            = Some [ {| role := "system"; content := meta_prompt |};
                     {| role := "user"; content := message request |};
                     {| role := "assistant"; content := a |};
                     {| role := "user"; content := message request' |};
                     {| role := "assistant"; content := a' |} ].
Proof.
  intros H. destruct (new_chat_returns_draw python _ _ _ _ _ _ H) as [Hid Hs].
  destruct (new_chat_Return python _ _ _ _ _ _ H) as (a & E & Hchats & _).
  rewrite Hid. split.
  - intros rs. apply (run_keeps_keys python rs) in Hs.
    destruct (continue_chat_status python uuid4 client' request' (fst (run
        python rs chats')))
      as (_ & H404 & _).
    cbn zeta in H404. rewrite H404. intros Hnone. rewrite Hnone in Hs.
    by destruct Hs.
  - exists a. split; [exact E|]. intros a' E'.
    assert (Hh : chats' !! uuid4
                 = Some [system_turn; user_turn (message request);
                         assistant_turn a])
      by (rewrite Hchats; apply lookup_insert_eq).
    rewrite (continue_chat_content python _ _ _ _ _ _ Hh E').
        apply lookup_insert_eq.
Qed.

Lemma new_chat_then_continue_witness :
  let cl : Client := fun _ => Content "Where to?" in
  let after := fst (new_chat cpython "7d0c" cl {| message := "hi" |} ∅) in
  status_code_of
    (snd (continue_chat cpython "7d0c" cl {| message := "Bali" |}
            (fst (run cpython [GetChatHistory "7d0c"; Health] after))))
  <> 404%Z.
Proof.
  intros cl after.
  refine (proj1 (new_chat_then_continue cpython "7d0c" cl cl {| message := "hi" |}
                   {| message := "Bali" |} ∅ after
                   {| chat_id := "7d0c"; return_message := JString "Where to?";
                      is_finished := JBool false; data := JNull |} _)
            [GetChatHistory "7d0c"; Health]).
  vm_compute. reflexivity.
Defined.

Lemma dom_serve (python : interpreter) (r : http_request) (chats : Chats) :
  dom (fst (serve python r chats)) = dom chats ∪ list_to_set (draws [r]).
Proof.
  rewrite fst_serve. destruct r as [u cl body|id cl body|id|]; cbn [draws].
  - destruct (new_chat_store python u cl body chats) as [turns ->].
    rewrite dom_insert_L. set_solver.
  - destruct (continue_chat_store python id cl body chats)
      as [->|(h & more & Hh & ->)]; [set_solver|].
    rewrite dom_insert_L. apply (elem_of_dom_2 (D := gset string)) in Hh.
    set_solver.
  - rewrite get_chat_history_store. set_solver.
  - set_solver.
Qed.

(** X12. The sessions of the store are the ones it started with and one
    per [new_chat] call, failed calls included: no other request creates
    a session and none removes one. *)
Theorem run_sessions (python : interpreter)
    (rs : list http_request) (chats : Chats) :
  dom (fst (run python rs chats)) = dom chats ∪ list_to_set (draws rs).
Proof.
  revert chats. induction rs as [|r rs IH]; intros chats.
  - cbn. set_solver.
  - rewrite fst_run_cons, IH, dom_serve, (draws_cons r rs).
    rewrite list_to_set_app_L. set_solver.
Qed.

(** ** Replies that are plainly not JSON *)

Lemma scan_once_not_value (max_digits fuel depth : nat) (c : ascii)
    (r : string) :
  starts_value c = false ->
  Decoder.scan_once max_digits (S fuel) depth (String c r)
  = Decoder.DecodeError.
Proof.
  destruct c as [[] [] [] [] [] [] [] []]; intros H;
    first [ discriminate H | reflexivity ].
Qed.

Lemma json_loads_prose (python : interpreter) (a : string) :
  starts_as_prose a = true -> json_loads python a = Raise JSONDecodeError.
Proof.
  unfold starts_as_prose, json_loads, Decoder.decode, Decoder.fuel_for.
  intros H. rewrite Nat.add_succ_r.
  destruct (Decoder.skip_ws a) as [|c r]; [reflexivity|].
  apply negb_true_iff in H. by rewrite (scan_once_not_value _ _ _ _ _ H).
Qed.

(** X13. A reply that is blank, or whose first character after leading
    whitespace is not a quotation mark, brace, bracket, minus sign, digit
    or one of the letters n, t, f, N, I, is never taken for JSON: both
    handlers answer 200 with the raw text, [is_finished] false and [data]
    null. *)
Theorem prose_reply_fallback (python : interpreter) (a : string) :
  starts_as_prose a = true ->
  (forall uuid4 openai_client request chats,
      openai_client (new_chat_request (message request)) = Content a ->
      snd (new_chat python uuid4 openai_client request chats)
      = Return {| chat_id := uuid4; return_message := JString a;
                  is_finished := JBool false; data := JNull |})
  /\ (forall chat_id openai_client request chats h,
         chats !! chat_id = Some h ->
         openai_client (continue_request (h ++ [user_turn (message request)]))
         = Content a ->
         snd (continue_chat python chat_id openai_client request chats)
         = Return {| c_return_message := JString a;
                     c_is_finished := JBool false; c_data := JNull |}).
Proof.
  intros Ha. apply (json_loads_prose python) in Ha. split.
  - intros uuid4 cl request chats E.
    rewrite (new_chat_content python _ _ _ _ _ E).
    cbn [snd]. unfold new_chat_outcome.
    by rewrite (parsed_reply_not_json python _ Ha).
  - intros chat_id cl request chats h Hh E.
    rewrite (continue_chat_content python _ _ _ _ _ _ Hh E).
    cbn [snd]. unfold continue_chat_outcome.
    by rewrite (parsed_reply_not_json python _ Ha).
Qed.

Lemma prose_reply_fallback_witness :
  let a := "  Epic choice, dude! {stoked}" in
  let openai_client : Client := fun _ => Content a in
  let chats : Chats := <["7d0c" := [system_turn; user_turn "hi"]]> ∅ in
  snd (new_chat cpython "a1b2" openai_client {| message := "yo" |} chats)
  = Return {| chat_id := "a1b2"; return_message := JString a;
              is_finished := JBool false; data := JNull |}
  /\ snd (continue_chat cpython "7d0c" openai_client {| message := "Bali" |} chats)
     = Return {| c_return_message := JString a;
                 c_is_finished := JBool false; c_data := JNull |}.
Proof.
  intros a openai_client chats.
  destruct (prose_reply_fallback cpython a)
      as [Hn Hc]; [vm_compute; reflexivity|].
  split.
  - apply (Hn "a1b2" openai_client {| message := "yo" |} chats). reflexivity.
  - apply (Hc "7d0c" openai_client {| message := "Bali" |} chats
             [system_turn; user_turn "hi"]).
    + vm_compute. reflexivity.
    + reflexivity.
Defined.

(** ** The mock service *)

Section MockFacts.
Variable lower : string -> string.

Lemma mock_new_chat_eq (uuid4 : string) (request : ChatRequest) (chats : Chats)
    :
  exists reply,
    Mock.new_chat lower uuid4 request chats
    = (<[uuid4 := [user_turn (message request); assistant_turn reply]]> chats,
       Return {| Mock.chat_id := uuid4; Mock.return_message := reply |}).
Proof.
  eexists. unfold Mock.new_chat, try_except, bind, setitem, list_append, ret.
  rewrite lookup_insert_eq, insert_insert_eq. reflexivity.
Qed.

Lemma mock_continue_chat_known (chat_id : string) (request : ChatRequest)
    (chats : Chats) (h : list Turn) :
  chats !! chat_id = Some h ->
  exists reply,
    Mock.continue_chat lower chat_id request chats
    = (<[chat_id := h ++ [user_turn (message request); assistant_turn reply]]>
         chats,
       Return {| Mock.c_return_message := reply |}).
Proof.
  intros Hh. eexists. unfold Mock.continue_chat, try_except, bind.
  rewrite (contains_Some _ _ _ Hh). unfold ret at 1, list_append at 1.
  rewrite Hh. unfold list_append, ret.
  rewrite lookup_insert_eq, insert_insert_eq, <- app_assoc. reflexivity.
Qed.

Lemma mock_continue_chat_unknown (chat_id : string) (request : ChatRequest)
    (chats : Chats) :
  chats !! chat_id = None ->
  Mock.continue_chat lower chat_id request chats
  = (chats, Raise (HTTPException 404 "Chat not found")).
Proof.
  intros Hh. unfold Mock.continue_chat, try_except, bind.
  by rewrite (contains_None _ _ Hh).
Qed.

Lemma mock_get_chat_history_store (chat_id : string) (chats : Chats) :
  fst (Mock.get_chat_history chat_id chats) = chats.
Proof.
  unfold Mock.get_chat_history, bind.
  destruct (chats !! chat_id) as [h|] eqn:Hh.
  - rewrite (contains_Some _ _ _ Hh). unfold ret at 1, getitem. by rewrite Hh.
  - by rewrite (contains_None _ _ Hh).
Qed.

(** X14. The mock's [POST /new_chat] never fails: it answers 200 with the
    drawn id, and the session it stores holds two turns and no system
    turn, the user's message and then the very text it returned. *)
Theorem mock_new_chat_records (uuid4 : string) (request : ChatRequest)
    (chats : Chats) :
  exists reply,
    Mock.new_chat lower uuid4 request chats
    = (<[uuid4 := [ {| role := "user"; content := message request |};
                    {| role := "assistant"; content := reply |} ]]> chats,
       Return {| Mock.chat_id := uuid4; Mock.return_message := reply |}).
Proof. apply mock_new_chat_eq. Qed.

(** X15. The mock's [POST /chats/{chat_id}/continue] answers 404 and
    leaves the store alone when the id is unknown; otherwise it never
    fails, and appends to the session the user's message and then the
    very text it returned. *)
Theorem mock_continue_chat_cases (chat_id : string) (request : ChatRequest)
    (chats : Chats) :
  match chats !! chat_id with
  | None =>
      Mock.continue_chat lower chat_id request chats
      = (chats, Raise (HTTPException 404 "Chat not found"))
  | Some h =>
      exists reply,
        Mock.continue_chat lower chat_id request chats
        = (<[chat_id := h ++ [ {| role := "user"; content := message request |};
                               {| role := "assistant"; content := reply |} ]]>
             chats,
           Return {| Mock.c_return_message := reply |})
  end.
Proof.
  destruct (chats !! chat_id) as [h|] eqn:Hh.
  - by apply mock_continue_chat_known.
  - by apply mock_continue_chat_unknown.
Qed.

Lemma alternating_app (h more : list Turn) :
  Mock.alternating h -> Mock.alternating more -> Mock.alternating (h ++ more).
Proof.
  revert h. fix IH 1. intros [|u [|a rest]]; cbn; try done.
  intros (Hu & Ha & Hrest) Hmore. repeat split; try done. by apply IH.
Qed.

Lemma mock_serve_alternating (r : Mock.http_request) (chats : Chats) :
  (forall id h, chats !! id = Some h -> Mock.alternating h) ->
  forall id h, Mock.serve lower r chats !! id = Some h -> Mock.alternating h.
Proof.
  intros Halt id h. destruct r as [u body|id' body|id']; cbn [Mock.serve].
  - destruct (mock_new_chat_eq u body chats) as [reply ->]. cbn [fst].
    destruct (decide (u = id)) as [->|Hne].
    + rewrite lookup_insert_eq. intros [= <-]. cbn. auto.
    + rewrite lookup_insert_ne by done. apply Halt.
  - destruct (chats !! id') as [h0|] eqn:Hh.
    + destruct (mock_continue_chat_known _ body _ _ Hh) as [reply ->].
      cbn [fst].
      destruct (decide (id' = id)) as [->|Hne].
      * rewrite lookup_insert_eq. intros [= <-].
        apply alternating_app; [by eapply Halt | cbn; auto].
      * rewrite lookup_insert_ne by done. apply Halt.
    + rewrite (mock_continue_chat_unknown _ _ _ Hh). apply Halt.
  - rewrite mock_get_chat_history_store. apply Halt.
Qed.

(** X16. In the mock every stored session is a strict alternation of user
    and assistant turns, starting with a user turn and ending with an
    assistant turn (so of even length), after any requests: since no
    request of the mock fails half-way, no message is left unanswered. *)
Theorem mock_run_alternating (rs : list Mock.http_request) (chats : Chats) :
  (forall id h, chats !! id = Some h -> Mock.alternating h) ->
  forall id h, Mock.run lower rs chats !! id = Some h -> Mock.alternating h.
Proof.
  revert chats. induction rs as [|r rs IH]; intros chats Halt; [exact Halt|].
  cbn [Mock.run fold_left]. apply IH. by apply mock_serve_alternating.
Qed.

End MockFacts.

Lemma mock_run_alternating_witness :
  let lower : string -> string := fun s => s in
  let rs :=
    [ Mock.NewChat "7d0c" {| message := "hello" |};
      Mock.ContinueChat "7d0c" {| message := "thanks" |};
      Mock.ContinueChat "0000" {| message := "weather" |};
      Mock.GetChatHistory "7d0c" ] in
  Mock.alternating
    [ user_turn "hello";
      assistant_turn "Hello! I'm a mock AI assistant. How can I help you today?";
      user_turn "thanks";
      assistant_turn "You're very welcome! I'm happy to help. Is there anything else you'd like to know?" ].
Proof.
  intros lower rs. apply (mock_run_alternating lower rs ∅) with (id := "7d0c").
  - intros id h Hh. rewrite lookup_empty in Hh. discriminate.
  - vm_compute. reflexivity.
Defined.
